(** * Compatibility shims of the single-cell analysis blueprint

    A shallow embedding of the Python scripts under [.tekton/patches],
    [.tekton-final-cleanup-backup-20250806-120916/patches] and
    [.tekton-backup-20250806-105910/scripts]:

    - [pca_compatibility_fix.py]  : the notebook-JSON editor,
    - [anndata_compat.py]         : the function-alias patch,
    - [pca_compat.py]             : the plotting interception patch,
    - [unified_compat.py]         : the [CompatibilityManager] dispatcher,
    - [pca_safe_execution.py]     : the execution wrapper.

    Python values are modelled by inductive types, the interpreter state
    (module attribute tables, [sys.excepthook], the file system, standard
    output) by a record threaded through a state-and-exception monad.

    Conventions of the model:
    - a [str] is a [string] of bytes, and [str.lower] acts on [A-Z];
    - [print] appends a line to [stdout] and does not raise;
    - an [import] finds the module loaded, finds it missing, or runs into
      an exception raised by the module's own code;
    - the code of [json], [papermill] and of the patched libraries is a
      parameter ([Runtime]). *)

From Stdlib Require Import String Ascii ZArith.
From stdpp Require Import base option list gmap strings pretty.

Set Warnings "-register-all".

Local Open Scope string_scope.

(** ** Python strings *)

Module PyStr.

(** [str.lower] on the ASCII range. *)
Definition lower_ascii (c : ascii) : ascii :=
  let n := nat_of_ascii c in
  if (65 <=? n)%nat && (n <=? 90)%nat then ascii_of_nat (n + 32) else c.

Fixpoint lower (s : string) : string :=
  match s with
  | EmptyString => EmptyString
  | String c s' => String (lower_ascii c) (lower s')
  end.

(** [needle in hay] for two strings. *)
Fixpoint contains (needle hay : string) : bool :=
  String.prefix needle hay ||
  match hay with
  | EmptyString => false
  | String _ hay' => contains needle hay'
  end.

(** The builtin [any] over a list of keywords tested against one message. *)
Definition any_in (keywords : list string) (msg : string) : bool :=
  existsb (fun keyword => contains keyword msg) keywords.

Definition nl : string := String (ascii_of_nat 10) EmptyString.

End PyStr.

(** ** Exceptions *)

Inductive exc_class :=
  | BaseException | Exception | KeyboardInterrupt | SystemExit
  | ImportError | ModuleNotFoundError
  | LookupError | KeyError
  | AttributeError | TypeError | ValueError | JSONDecodeError
  | RuntimeError | RecursionError
  | OSError | FileNotFoundError | PermissionError | SameFileError.

(** The direct base class, as in the interpreter's class hierarchy. *)
Definition base_class (c : exc_class) : option exc_class :=
  match c with
  | BaseException => None
  | Exception | KeyboardInterrupt | SystemExit => Some BaseException
  | ImportError | LookupError | AttributeError | TypeError | ValueError
  | RuntimeError | OSError => Some Exception
  | ModuleNotFoundError => Some ImportError
  | KeyError => Some LookupError
  | JSONDecodeError => Some ValueError
  | RecursionError => Some RuntimeError
  | FileNotFoundError | PermissionError | SameFileError => Some OSError
  end.

Definition exc_class_eqb (c d : exc_class) : bool :=
  match c, d with
  | BaseException, BaseException | Exception, Exception
  | KeyboardInterrupt, KeyboardInterrupt | SystemExit, SystemExit
  | ImportError, ImportError | ModuleNotFoundError, ModuleNotFoundError
  | LookupError, LookupError | KeyError, KeyError
  | AttributeError, AttributeError | TypeError, TypeError
  | ValueError, ValueError | JSONDecodeError, JSONDecodeError
  | RuntimeError, RuntimeError | RecursionError, RecursionError
  | OSError, OSError | FileNotFoundError, FileNotFoundError
  | PermissionError, PermissionError | SameFileError, SameFileError => true
  | _, _ => false
  end.

(** [issubclass c d]; the hierarchy above is at most four levels deep. *)
Fixpoint issubclass_fuel (n : nat) (c d : exc_class) : bool :=
  exc_class_eqb c d ||
  match n, base_class c with
  | S n', Some b => issubclass_fuel n' b d
  | _, _ => false
  end.

Definition issubclass : exc_class -> exc_class -> bool := issubclass_fuel 4.

(** An exception object: its class and the text [str(e)] gives;
    [sys.exit(code)] raises [SysExit code]. *)
Inductive exc :=
  | Exc (cls : exc_class) (msg : string)
  | SysExit (code : Z).

Definition class_of (e : exc) : exc_class :=
  match e with
  | Exc cls _ => cls
  | SysExit _ => SystemExit
  end.

Definition isinstance (e : exc) (c : exc_class) : bool :=
  issubclass (class_of e) c.

(** ** The notebook document *)

(** What [json.load] returns. A float is carried by its literal. *)
Inductive json :=
  | JNull
  | JBool (b : bool)
  | JInt (n : Z)
  | JFloat (literal : string)
  | JStr (s : string)
  | JArr (items : list json)
  | JObj (fields : list (string * json)).

Inductive result (A : Type) :=
  | Ok (a : A)
  | Raise (e : exc).
Arguments Ok {A} a.
Arguments Raise {A} e.

Module Notebook.

Import PyStr.

Fixpoint assoc_get (k : string) (fields : list (string * json)) : option json :=
  match fields with
  | [] => None
  | (k', v) :: rest => if String.eqb k k' then Some v else assoc_get k rest
  end.

Fixpoint assoc_set (k : string) (v : json) (fields : list (string * json))
  : list (string * json) :=
  match fields with
  | [] => []
  | (k', v') :: rest =>
      if String.eqb k k' then (k', v) :: rest else (k', v') :: assoc_set k v rest
  end.

(** [nb[key]] for a string key. *)
Definition getitem (nb : json) (key : string) : result json :=
  match nb with
  | JObj fields =>
      match assoc_get key fields with
      | Some v => Ok v
      | None => Raise (Exc KeyError ("'" ++ key ++ "'"))
      end
  | JArr _ => Raise (Exc TypeError "list indices must be integers or slices, not str")
  | JStr _ => Raise (Exc TypeError "string indices must be integers, not 'str'")
  | _ => Raise (Exc TypeError "object is not subscriptable")
  end.

(** [len(v)]. *)
Definition len (v : json) : result nat :=
  match v with
  | JArr items => Ok (length items)
  | JObj fields => Ok (length fields)
  | JStr s => Ok (String.length s)
  | _ => Raise (Exc TypeError "object has no len()")
  end.

(** [list.insert(i, x)] for [0 <= i]: past the end it appends. *)
Definition list_insert_at {A} (i : nat) (x : A) (l : list A) : list A :=
  take i l ++ x :: drop i l.

(** [v.insert(i, x)]: only a list has the method. *)
Definition insert_method (v : json) (i : nat) (x : json) : result json :=
  match v with
  | JArr items => Ok (JArr (list_insert_at i x items))
  | _ => Raise (Exc AttributeError "object has no attribute 'insert'")
  end.

(** The list under [key] is mutated in place: the document holds the
    new list under the same key, at the same place. *)
Definition store_back (nb : json) (key : string) (v : json) : json :=
  match nb with
  | JObj fields => JObj (assoc_set key v fields)
  | _ => nb
  end.

Definition insert_index : nat := 26.

Definition compatibility_source : list string :=
  [ "# PCA Compatibility Fix: Convert rapids-singlecell PCA results to scanpy format" ++ nl;
    "try:" ++ nl;
    "    if 'pca' not in adata.uns:" ++ nl;
    "        print('⚠️  PCA results not found in adata.uns, attempting to recreate...')" ++ nl;
    "        if hasattr(adata, 'obsm') and 'X_pca' in adata.obsm:" ++ nl;
    "            # Create minimal PCA structure for plotting" ++ nl;
    "            import numpy as np" ++ nl;
    "            n_pcs = min(100, adata.obsm['X_pca'].shape[1])" ++ nl;
    "            # Create dummy variance ratio (will be replaced if available)" ++ nl;
    "            variance_ratio = np.ones(n_pcs) / n_pcs" ++ nl;
    "            if hasattr(adata, 'varm') and 'PCs' in adata.varm:" ++ nl;
    "                # Use actual variance if available" ++ nl;
    "                variance_ratio = np.var(adata.obsm['X_pca'], axis=0)" ++ nl;
    "                variance_ratio = variance_ratio / variance_ratio.sum()" ++ nl;
    "            adata.uns['pca'] = {" ++ nl;
    "                'variance': variance_ratio * adata.n_vars," ++ nl;
    "                'variance_ratio': variance_ratio" ++ nl;
    "            }" ++ nl;
    "            print(f'✅ Created PCA structure with {n_pcs} components')" ++ nl;
    "        else:" ++ nl;
    "            print('❌ No PCA data found, skipping PCA plots')" ++ nl;
    "    else:" ++ nl;
    "        print('✅ PCA data already available')" ++ nl;
    "except Exception as e:" ++ nl;
    "    print(f'⚠️  PCA compatibility fix failed: {e}')" ++ nl;
    "    print('Continuing without PCA plots...')" ].

Definition compatibility_cell : json :=
  JObj [ ("cell_type", JStr "code");
         ("execution_count", JNull);
         ("id", JStr "pca-compatibility-fix");
         ("metadata", JObj []);
         ("outputs", JArr []);
         ("source", JArr (JStr <$> compatibility_source)) ].

Definition msg_inserted : string :=
  "✅ Inserted PCA compatibility cell at position 26".
Definition msg_too_short : string :=
  "⚠️  Could not insert compatibility cell, notebook too short".

(** Lines 16-61 of [add_pca_compatibility_cell]: what happens to the
    loaded document between [json.load] and [json.dump]. The printed
    line comes with the document. *)
Definition insert_compatibility_cell (nb : json) : result (json * string) :=
  match getitem nb "cells" with
  | Raise e => Raise e
  | Ok cells =>
      match len cells with
      | Raise e => Raise e
      | Ok n =>
          if (insert_index <? n)%nat then
            match insert_method cells insert_index compatibility_cell with
            | Raise e => Raise e
            | Ok cells' => Ok (store_back nb "cells" cells', msg_inserted)
            end
          else Ok (nb, msg_too_short)
      end
  end.

End Notebook.

(** ** Interpreter state *)

(** The two places that define the [safe_pca] closure:
    [unified_compat.py] and [pca_compat.py]. *)
Inductive shim := InUnifiedCompat | InPcaCompat.

(** Python objects held in module attribute tables. A library callable is
    known by its identity [VFn id]; two names resolve to the same callable
    when they hold the same [VFn id]. *)
Inductive value :=
  | VNone
  | VBool (b : bool)
  | VStr (s : string)
  | VFn (id : nat)
  | VSafePca (origin : shim)
  | VEnsurePcaCompatibility
  | VPatchPcaCompatibility.

(** What an [import] of a module finds: the module's code raises, or the
    module is there with its attribute table. A name outside the table of
    modules is not installed. *)
Inductive module_state :=
  | Broken (e : exc)
  | Loaded (attrs : gmap string value).

(** [sys.excepthook]: a hook of the interpreter or of a library, or the
    closure [resilient_excepthook] holding the hook it replaced. *)
Inductive hook :=
  | BuiltinHook (id : nat)
  | ResilientHook (original_excepthook : hook).

Record CompatibilityManager := mkManager {
  applied_patches : list string;
  notebook_name : option string
}.

Record state := mkState {
  files : gmap string string;
  readonly : gset string;
  modules : gmap string module_state;
  builtins : gmap string value;
  excepthook : hook;
  compat_manager : CompatibilityManager;
  stdout : list string;
  calls : list string
}.

Definition set_files (f : gmap string string) (st : state) : state :=
  mkState f (readonly st) (modules st) (builtins st) (excepthook st)
          (compat_manager st) (stdout st) (calls st).
Definition set_modules (m : gmap string module_state) (st : state) : state :=
  mkState (files st) (readonly st) m (builtins st) (excepthook st)
          (compat_manager st) (stdout st) (calls st).
Definition set_builtins (b : gmap string value) (st : state) : state :=
  mkState (files st) (readonly st) (modules st) b (excepthook st)
          (compat_manager st) (stdout st) (calls st).
Definition set_excepthook (h : hook) (st : state) : state :=
  mkState (files st) (readonly st) (modules st) (builtins st) h
          (compat_manager st) (stdout st) (calls st).
Definition set_compat_manager (c : CompatibilityManager) (st : state) : state :=
  mkState (files st) (readonly st) (modules st) (builtins st) (excepthook st)
          c (stdout st) (calls st).
Definition set_stdout (o : list string) (st : state) : state :=
  mkState (files st) (readonly st) (modules st) (builtins st) (excepthook st)
          (compat_manager st) o (calls st).
Definition set_calls (c : list string) (st : state) : state :=
  mkState (files st) (readonly st) (modules st) (builtins st) (excepthook st)
          (compat_manager st) (stdout st) c.

Arguments set_files _ _ /.
Arguments set_modules _ _ /.
Arguments set_builtins _ _ /.
Arguments set_excepthook _ _ /.
Arguments set_compat_manager _ _ /.
Arguments set_stdout _ _ /.
Arguments set_calls _ _ /.

(** ** The monad of statements: state passing with exceptions *)

Definition M (A : Type) : Type := state -> result A * state.

#[global] Instance M_ret : MRet M := fun A a st => (Ok a, st).
#[global] Instance M_bind : MBind M := fun A B k m st =>
  match m st with
  | (Ok a, st') => k a st'
  | (Raise e, st') => (Raise e, st')
  end.

Definition raise {A} (e : exc) : M A := fun st => (Raise e, st).

Definition lift {A} (r : result A) : M A := fun st => (r, st).

Definition gets {A} (f : state -> A) : M A := fun st => (Ok (f st), st).

Definition modify (f : state -> state) : M unit := fun st => (Ok (), f st).

(** [try: body except cls as e: handler e]. State changes made by the
    body before it raised stay. *)
Definition try_except {A} (body : M A) (cls : exc_class) (handler : exc -> M A)
  : M A := fun st =>
  match body st with
  | (Ok a, st') => (Ok a, st')
  | (Raise e, st') =>
      if isinstance e cls then handler e st' else (Raise e, st')
  end.

(** [str(e)]. *)
Definition str (e : exc) : string :=
  match e with
  | Exc _ msg => msg
  | SysExit code => pretty code
  end.

Definition print (line : string) : M unit :=
  modify (fun st => set_stdout (stdout st ++ [line]) st).

Definition sys_exit {A} (code : Z) : M A := raise (SysExit code).

(** The exit status of a script run as the main program: 0 when it runs
    off its end, the code of [sys.exit], 1 after a traceback, 130 after an
    interrupt from the keyboard. *)
Definition exit_status {A} (r : result A) : Z :=
  match r with
  | Ok _ => 0
  | Raise (SysExit code) => code
  | Raise (Exc cls _) => if issubclass cls KeyboardInterrupt then 130 else 1
  end.

(** Instrumentation: the methods and functions entered, in order. *)
Definition enter (name : string) : M unit :=
  modify (fun st => set_calls (calls st ++ [name]) st).

(** ** Library code outside the repository *)

(** [json], [papermill] and the callables and hooks of the patched
    libraries are not part of the repository: the scripts are verified for
    every behaviour of them. *)
Class Runtime := {
  (** the positional and keyword arguments of a call *)
  call_args : Type;
  (** [json.load] on the text of a file *)
  json_load : string -> result json;
  (** [json.dump(nb, f, indent=2)] on a document [json.load] returned *)
  json_dump : json -> string;
  (** a call of the library callable [VFn id] *)
  builtin_call : nat -> call_args -> M value;
  (** a call of the hook [BuiltinHook id] with the exception value *)
  builtin_hook : nat -> exc -> M value;
  (** [papermill.execute_notebook(input, output, kernel_name='python3')] *)
  pm_execute_notebook : string -> string -> M unit
}.

(** ** Files *)

Module Files.

(** [open(path, 'r')] and [f.read()]. *)
Definition read_text (path : string) : M string := fun st =>
  match files st !! path with
  | Some text => (Ok text, st)
  | None =>
      (Raise (Exc FileNotFoundError ("No such file or directory: '" ++ path ++ "'")), st)
  end.

(** [open(path, 'w')] and the write of the whole text. *)
Definition write_text (path text : string) : M unit := fun st =>
  if decide (path ∈ readonly st)
  then (Raise (Exc PermissionError ("Permission denied: '" ++ path ++ "'")), st)
  else (Ok (), set_files (<[path := text]> (files st)) st).

(** [shutil.copy2(src, dst)] between two file paths. *)
Definition copy2 (src dst : string) : M unit :=
  if String.eqb src dst
  then raise (Exc SameFileError ("'" ++ src ++ "' and '" ++ dst ++ "' are the same file"))
  else text ← read_text src; write_text dst text.

End Files.

(** ** pca_compatibility_fix.py *)

Module PcaCompatibilityFix.

Import Notebook Files.

Section Script.
Context `{Runtime}.

Definition add_pca_compatibility_cell (notebook_path output_path : string)
  : M bool :=
  text ← read_text notebook_path;
  nb ← lift (json_load text);
  edited ← lift (insert_compatibility_cell nb);
  print edited.2;;
  write_text output_path (json_dump edited.1);;
  mret true.

Definition usage : string :=
  "Usage: python pca_compatibility_fix.py input.ipynb output.ipynb".

(** The [__main__] block, on [sys.argv]. *)
Definition main (argv : list string) : M unit :=
  match argv with
  | [_; input_notebook; output_notebook] =>
      try_except
        (add_pca_compatibility_cell input_notebook output_notebook;;
         print ("✅ Created compatibility-fixed notebook: " ++ output_notebook))
        Exception
        (fun e =>
           print ("❌ Failed to create compatibility fix: " ++ str e);;
           copy2 input_notebook output_notebook;;
           sys_exit 1)
  | _ => print usage;; sys_exit 1
  end.

End Script.

End PcaCompatibilityFix.

(** ** Imports and module attributes *)

Module Imports.

(** [import name]: the module's attribute table. *)
Definition import_module (name : string) : M (gmap string value) := fun st =>
  match modules st !! name with
  | None => (Raise (Exc ModuleNotFoundError ("No module named '" ++ name ++ "'")), st)
  | Some (Broken e) => (Raise e, st)
  | Some (Loaded attrs) => (Ok attrs, st)
  end.

(** [from name import attr]. *)
Definition import_from (name attr : string) : M value :=
  attrs ← import_module name;
  match attrs !! attr with
  | Some v => mret v
  | None =>
      raise (Exc ImportError
               ("cannot import name '" ++ attr ++ "' from '" ++ name ++ "'"))
  end.

(** [hasattr(module, attr)] on a module already imported. *)
Definition hasattr (name attr : string) : M bool :=
  gets (fun st =>
          match modules st !! name with
          | Some (Loaded attrs) => bool_decide (is_Some (attrs !! attr))
          | _ => false
          end).

(** [module.attr] on a module already imported. *)
Definition getattr (name attr : string) : M value := fun st =>
  match modules st !! name with
  | Some (Loaded attrs) =>
      match attrs !! attr with
      | Some v => (Ok v, st)
      | None =>
          (Raise (Exc AttributeError
                    ("module '" ++ name ++ "' has no attribute '" ++ attr ++ "'")), st)
      end
  | _ =>
      (Raise (Exc AttributeError
                ("module '" ++ name ++ "' has no attribute '" ++ attr ++ "'")), st)
  end.

(** [module.attr = v] on a module already imported. *)
Definition setattr (name attr : string) (v : value) : M unit :=
  modify (fun st =>
            match modules st !! name with
            | Some (Loaded attrs) =>
                set_modules (<[name := Loaded (<[attr := v]> attrs)]> (modules st)) st
            | _ => st
            end).

(** [builtins.attr = v]. *)
Definition set_builtin (attr : string) (v : value) : M unit :=
  modify (fun st => set_builtins (<[attr := v]> (builtins st)) st).

End Imports.

(** ** anndata_compat.py *)

Module AnndataCompat.

Import Imports.

Definition patch_anndata : M unit :=
  enter "patch_anndata";;
  try_except
    (read_elem_lazy ← (import_module "anndata";;
                       import_from "anndata.experimental" "read_elem_lazy");
     try_except
       (import_from "anndata.experimental" "read_elem_as_dask";;
        print "✅ read_elem_as_dask already available")
       ImportError
       (fun _ =>
          import_module "anndata";;
          import_module "anndata.experimental";;
          setattr "anndata.experimental" "read_elem_as_dask" read_elem_lazy;;
          print "🔧 Patched: read_elem_as_dask -> read_elem_lazy"))
    Exception
    (fun e => print ("⚠️ Patch failed: " ++ str e)).

End AnndataCompat.

(** ** The [safe_pca] closure and calls *)

Module Calls.

Import PyStr Imports.

Definition safe_pca_report (origin : shim) : M unit :=
  match origin with
  | InUnifiedCompat =>
      print "⚠️ PCA plotting failed due to missing 'pca' key";;
      print "   This is a known compatibility issue";;
      print "   Analysis data is complete, only visualization affected"
  | InPcaCompat =>
      print "⚠️ PCA plotting failed due to missing 'pca' key - this is a known compatibility issue";;
      print "   The analysis data is complete, only PCA visualization is affected";;
      print "   Continuing with notebook execution..."
  end.

Section Call.
Context `{Runtime}.

(** A call of [f] with its arguments. [depth] is the room left on the interpreter's
    call stack: a call at depth 0 raises [RecursionError]. *)
Fixpoint call (depth : nat) (f : value) (a : call_args) : M value :=
  match depth with
  | 0 => raise (Exc RecursionError "maximum recursion depth exceeded")
  | S depth' =>
      match f with
      | VFn id => builtin_call id a
      | VSafePca origin =>
          try_except
            (original ← getattr "scanpy.plotting" "_original_pca";
             call depth' original a)
            KeyError
            (fun e =>
               if contains "pca" (str e)
               then safe_pca_report origin;; mret VNone
               else raise e)
      | _ => raise (Exc TypeError "object is not callable")
      end
  end.

End Call.

End Calls.

(** ** pca_compat.py *)

Module PcaCompat.

Import Imports.

(** The first patch of [patch_pca_compatibility], shared word for word
    with [CompatibilityManager.apply_pca_compatibility] up to the name
    of the closure's origin. *)
Definition install_safe_pca (origin : shim) : M unit :=
  import_module "scanpy";;
  import_module "scanpy.plotting";;
  has ← hasattr "scanpy.plotting" "_original_pca";
  (if negb has
   then pca ← getattr "scanpy.plotting" "pca";
        setattr "scanpy.plotting" "_original_pca" pca
   else mret ());;
  setattr "scanpy.plotting" "pca" (VSafePca origin);;
  print "✅ Applied PCA plotting compatibility patch".

Definition patch_pca_compatibility : M unit :=
  enter "patch_pca_compatibility";;
  print "🔧 Applying PCA compatibility patches...";;
  try_except
    (install_safe_pca InPcaCompat)
    ImportError
    (fun _ => print "ℹ️ scanpy not available for PCA patching");;
  set_builtin "ensure_pca_compatibility" VEnsurePcaCompatibility;;
  print "✅ PCA compatibility patches applied successfully".

End PcaCompat.

(** ** unified_compat.py *)

Module UnifiedCompat.

Import PyStr Imports PcaCompat.

(** How an f-string shows a name that may be [None]. *)
Definition show_name (name : option string) : string :=
  match name with
  | Some s => s
  | None => "None"
  end.

(** Truth value of [self.notebook_name]: [None] and the empty string are
    false. *)
Definition truthy (name : option string) : bool :=
  match name with
  | Some s => negb (String.eqb s EmptyString)
  | None => false
  end.

(** [name in names] for a list of string literals. *)
Definition name_in (name : option string) (names : list string) : bool :=
  match name with
  | Some s => existsb (String.eqb s) names
  | None => false
  end.

Definition append_patch (patch : string) : M unit :=
  modify (fun st =>
            let self := compat_manager st in
            set_compat_manager
              (mkManager (applied_patches self ++ [patch]) (notebook_name self)) st).

Definition set_notebook_context (name : option string) : M unit :=
  enter "set_notebook_context";;
  modify (fun st =>
            let self := compat_manager st in
            set_compat_manager (mkManager (applied_patches self) name) st);;
  print ("🎯 Setting compatibility context for: " ++ show_name name).

Definition apply_anndata_compatibility : M unit :=
  enter "apply_anndata_compatibility";;
  try_except
    (read_elem_lazy ← (import_module "anndata";;
                       import_from "anndata.experimental" "read_elem_lazy");
     try_except
       (import_from "anndata.experimental" "read_elem_as_dask";;
        print "✅ read_elem_as_dask already available")
       ImportError
       (fun _ =>
          import_module "anndata";;
          import_module "anndata.experimental";;
          setattr "anndata.experimental" "read_elem_as_dask" read_elem_lazy;;
          print "🔧 Patched: read_elem_as_dask -> read_elem_lazy";;
          append_patch "anndata_read_elem_as_dask"))
    Exception
    (fun e => print ("⚠️ AnnData patch failed: " ++ str e)).

Definition apply_pca_compatibility : M unit :=
  enter "apply_pca_compatibility";;
  try_except
    (install_safe_pca InUnifiedCompat;;
     append_patch "pca_plotting_safety")
    ImportError
    (fun _ => print "ℹ️ scanpy not available for PCA patching").

Definition resilience_keywords : list string :=
  ["keyerror: 'pca'"; "pca"; "plotting"].

Definition apply_general_resilience : M unit :=
  enter "apply_general_resilience";;
  original_excepthook ← gets excepthook;
  modify (set_excepthook (ResilientHook original_excepthook));;
  print "✅ Applied general error resilience";;
  append_patch "general_resilience".

Definition apply_all_patches : M unit :=
  enter "apply_all_patches";;
  print "🔧 Applying all compatibility patches...";;
  apply_anndata_compatibility;;
  apply_pca_compatibility;;
  apply_general_resilience.

Definition apply_notebook_specific_patches : M unit :=
  enter "apply_notebook_specific_patches";;
  name ← gets (fun st => notebook_name (compat_manager st));
  if negb (truthy name) then
    print "⚠️ No notebook context set, applying all patches";;
    apply_all_patches
  else
    print ("🎯 Applying patches for " ++ show_name name);;
    if name_in name ["01_scRNA_analysis_preprocessing"] then
      apply_pca_compatibility;;
      apply_general_resilience
    else if name_in name ["04_scRNA_analysis_dask_out_of_core";
                          "05_scRNA_analysis_multi_GPU"] then
      apply_anndata_compatibility;;
      apply_general_resilience
    else
      apply_general_resilience.


Definition setup_compatibility (name : option string) : M unit :=
  enter "setup_compatibility";;
  (if truthy name then set_notebook_context name else mret ());;
  apply_notebook_specific_patches;;
  summary ← gets compat_manager;
  print "✅ Compatibility setup complete:";;
  print ("   Notebook: " ++ show_name (notebook_name summary));;
  print ("   Patches applied: " ++ pretty (length (applied_patches summary)));;
  modify (fun st =>
            set_stdout
              (app (stdout st)
                   ((fun patch => "   - " ++ patch) <$> applied_patches summary))
              st).

(** The [__main__] block. *)
Definition main (argv : list string) : M unit :=
  setup_compatibility (argv !! 1).

(** [startup_compat.py]: the name comes from the environment variable
    [NOTEBOOK_NAME], else from the first argument. *)
Definition startup_compat (NOTEBOOK_NAME : option string) (argv : list string)
  : M unit :=
  let name := match NOTEBOOK_NAME with
              | Some s => Some s
              | None => argv !! 1
              end in
  (if truthy name then
     print ("🎯 Setting up compatibility for: " ++ show_name name);;
     setup_compatibility name
   else
     print "🔧 Setting up general compatibility patches";;
     setup_compatibility None);;
  print "✅ Compatibility system ready!".

Section Hook.
Context `{Runtime}.

(** A call [h(exc_type, exc_value, exc_traceback)] of the hook [h]; the
    type and traceback come with the exception value. *)
Fixpoint call_hook (h : hook) (exc_value : exc) : M value :=
  match h with
  | BuiltinHook id => builtin_hook id exc_value
  | ResilientHook original_excepthook =>
      let error_msg := lower (str exc_value) in
      if any_in resilience_keywords error_msg then
        print "🛡️ Handled known plotting error gracefully";;
        print ("   Error: " ++ str exc_value);;
        print "   Notebook execution continues...";;
        mret VNone
      else
        call_hook original_excepthook exc_value
  end.

End Hook.

End UnifiedCompat.

(** ** pca_safe_execution.py *)

Module PcaSafeExecution.

Import PyStr Imports PcaCompat.

Section Script.
Context `{Runtime}.

(** The body of the [try]. An importable [pca_compat] is the
    repository's. [traceback.print_exc()] in the handler writes to standard
    error, which the state does not keep. *)
Definition patched_execution (notebook_path output_path : string) : M bool :=
  import_from "pca_compat" "patch_pca_compatibility";;
  patch_pca_compatibility;;
  import_module "papermill";;
  print "🔧 Executing notebook with PCA safety patches...";;
  pm_execute_notebook notebook_path output_path;;
  print "✅ Notebook executed successfully with PCA safety";;
  mret true.

(** The test of the handler on [error_msg]. *)
Definition pca_related (error_msg : string) : bool :=
  contains "pca" (lower error_msg) || contains "keyerror" (lower error_msg).

Definition execute_with_pca_safety (notebook_path output_path : string)
  : M bool :=
  enter "execute_with_pca_safety";;
  try_except
    (patched_execution notebook_path output_path)
    Exception
    (fun e =>
       let error_msg := str e in
       if pca_related error_msg
       then
         print "⚠️ PCA-related error detected but handled gracefully:";;
         print ("   " ++ error_msg);;
         print "✅ Notebook execution completed with known PCA limitation";;
         mret true
       else
         print ("❌ Genuine execution error: " ++ error_msg);;
         mret false).

Definition usage : string :=
  "Usage: python pca_safe_execution.py <input_notebook> <output_notebook>".

(** The [__main__] block, on [sys.argv]. *)
Definition main (argv : list string) : M unit :=
  match argv with
  | [_; input_notebook; output_notebook] =>
      success ← execute_with_pca_safety input_notebook output_notebook;
      sys_exit (A := unit) (if (success : bool) then 0%Z else 1%Z)
  | _ => print usage;; sys_exit 1
  end.

End Script.

End PcaSafeExecution.

(** ** pca_compat.py: the helpers published through [builtins] *)

Module PcaCompatHelpers.

Import PyStr.

(** An attribute of the object handed to [ensure_pca_compatibility]: a
    container that answers [key in attr] by its keys, or a value that
    does not support [in]. *)
Inductive attribute :=
  | Keyed (keys : gset string)
  | Unkeyed.

(** [getattr(adata, location)] on an object known by its attributes. *)
Definition object_getattr (adata : gmap string attribute) (location : string)
  : M attribute :=
  match adata !! location with
  | Some attr => mret attr
  | None => raise (Exc AttributeError ("object has no attribute '" ++ location ++ "'"))
  end.

(** [key in attr]. *)
Definition key_in (key : string) (attr : attribute) : M bool :=
  match attr with
  | Keyed keys => mret (bool_decide (key ∈ keys))
  | Unkeyed => raise (Exc TypeError "argument is not iterable")
  end.

Definition pca_locations : list (string * string) :=
  [ ("X_pca", "obsm"); ("pca", "uns"); ("X_pca", "uns") ].

(** The [for] loop with its [break]: the value is [has_pca]. *)
Fixpoint find_pca_results (adata : gmap string attribute)
    (locations : list (string * string)) : M bool :=
  match locations with
  | [] => mret false
  | (key, location) :: rest =>
      attr ← object_getattr adata location;
      found ← key_in key attr;
      if (found : bool) then
        print ("✅ Found PCA results in adata." ++ location ++ "['" ++ key ++ "']");;
        mret true
      else find_pca_results adata rest
  end.

Definition ensure_pca_compatibility (adata : gmap string attribute) : M bool :=
  try_except
    (has_pca ← find_pca_results adata pca_locations;
     (if negb has_pca then
        print "⚠️ No PCA results found, this might cause plotting issues";;
        print "   Analysis data is still complete and valid"
      else mret ());;
     mret true)
    Exception
    (fun e =>
       print ("⚠️ PCA compatibility check failed: " ++ str e);;
       mret false).

(** [PCAErrorHandler.__exit__(exc_type, exc_val, exc_tb)]; [None] stands
    for the three [None] of a block that ended without exception. *)
Definition PCAErrorHandler_exit (exc_val : option exc) : M bool :=
  match exc_val with
  | Some e =>
      if contains "pca" (lower (str e)) then
        print "⚠️ PCA plotting error handled gracefully:";;
        print ("   Error: " ++ str e);;
        print "   This is a known compatibility issue between scanpy versions";;
        print "   The notebook execution will continue normally";;
        print "   Analysis results are still valid and complete";;
        mret true
      else mret false
  | None => mret false
  end.

(** [with PCAErrorHandler(): body]: [__enter__] returns the handler, the
    block runs, and [__exit__] decides whether an exception of the block
    is dropped. *)
Definition with_PCAErrorHandler (body : M unit) : M unit := fun st =>
  match body st with
  | (Ok _, st') => (PCAErrorHandler_exit None;; mret ()) st'
  | (Raise e, st') =>
      match PCAErrorHandler_exit (Some e) st' with
      | (Ok true, st'') => (Ok (), st'')
      | (Ok false, st'') => (Raise e, st'')
      | (Raise e', st'') => (Raise e', st'')
      end
  end.

End PcaCompatHelpers.

(** ** Specification vocabulary *)

(** [new] is [old] with [x] put in at index [i]: one entry longer, [x] at
    [i], the entries before [i] where they were, the entries from [i] on
    one place further. *)
Definition inserted_at {A} (i : nat) (x : A) (old new : list A) : Prop :=
  length new = S (length old) /\
  new !! i = Some x /\
  (forall j, j < i -> new !! j = old !! j) /\
  (forall j, i <= j -> new !! S j = old !! j).

(** Two documents agree on every key but [key], and list their keys in
    the same order. *)
Definition same_apart_from (key : string) (nb nb' : json) : Prop :=
  (forall k, k <> key -> Notebook.getitem nb' k = Notebook.getitem nb k) /\
  match nb, nb' with
  | JObj fields, JObj fields' => fields'.*1 = fields.*1
  | _, _ => nb' = nb
  end.

(** What [module.attr] resolves to in a state, when it resolves. *)
Definition resolve (st : state) (name attr : string) : option value :=
  match modules st !! name with
  | Some (Loaded attrs) => attrs !! attr
  | _ => None
  end.

(** The notebook names the dispatcher has a branch for. *)
Definition recognised : list string :=
  [ "01_scRNA_analysis_preprocessing";
    "04_scRNA_analysis_dask_out_of_core";
    "05_scRNA_analysis_multi_GPU" ].

(** ** Frame conditions *)

(** [m] relates every state it is run in to the state it leaves,
    whether it returns or raises. *)
Definition keeps {A} (R : state -> state -> Prop) (m : M A) : Prop :=
  forall st, R st (m st).2.

(** The file system is as it was. *)
Definition same_files (st st' : state) : Prop :=
  files st' = files st /\ readonly st' = readonly st.

(** Every file but the one at [path] is as it was. *)
Definition same_files_except (path : string) (st st' : state) : Prop :=
  (forall p, p <> path -> files st' !! p = files st !! p) /\
  readonly st' = readonly st.

(** Every module but [name] is as it was. *)
Definition same_modules_except (name : string) (st st' : state) : Prop :=
  forall k, k <> name -> modules st' !! k = modules st !! k.

(** Among the attribute tables of the interpreter (the modules,
    [builtins], and [sys] with its [excepthook]) only that of [module] and
    the name [builtin] of [builtins], if one is given, may have changed. *)
Definition writes_only (module : string) (builtin : option string)
    (st st' : state) : Prop :=
  (forall k, k <> module -> modules st' !! k = modules st !! k) /\
  (forall k, Some k <> builtin -> builtins st' !! k = builtins st !! k) /\
  excepthook st' = excepthook st.

(** The manager keeps its context and the patches it recorded, and may
    have recorded more. *)
Definition manager_grows (st st' : state) : Prop :=
  notebook_name (compat_manager st') = notebook_name (compat_manager st) /\
  exists more,
    applied_patches (compat_manager st')
    = (applied_patches (compat_manager st) ++ more)%list.

(** The hook [h] with [n] layers of [resilient_excepthook] around it. *)
Definition layered (n : nat) (h : hook) : hook := Nat.iter n ResilientHook h.

(** The state after [n] runs of [m] in a row, each one returning or not. *)
Definition repeated {A} (n : nat) (m : M A) (st : state) : state :=
  Nat.iter n (fun s => (m s).2) st.

(** Whether the lookups of [ensure_pca_compatibility] go through: the
    loop stops at [obsm] when it holds [X_pca], and needs [uns] to be a
    container otherwise. *)
Definition lookups_succeed (adata : gmap string PcaCompatHelpers.attribute) : bool :=
  match adata !! "obsm" with
  | Some (PcaCompatHelpers.Keyed obsm) =>
      if decide ("X_pca" ∈ obsm) then true
      else match adata !! "uns" with
           | Some (PcaCompatHelpers.Keyed _) => true
           | _ => false
           end
  | _ => false
  end.

(** ** A concrete runtime, to run the scripts on examples *)

Module Sample.

Import PyStr.

Definition cell (n : Z) : json :=
  JObj [("cell_type", JStr "markdown"); ("source", JArr [JStr (pretty n)])].

Definition notebook (cells : nat) : json :=
  JObj [ ("cells", JArr (cell <$> (Z.of_nat <$> seq 0 cells)));
         ("metadata", JObj [("kernelspec", JStr "python3")]);
         ("nbformat", JInt 4) ].

Definition load (text : string) : result json :=
  if String.eqb text "long" then Ok (notebook 30)
  else if String.eqb text "exact" then Ok (notebook 27)
  else if String.eqb text "short" then Ok (notebook 26)
  else if String.eqb text "array" then Ok (JArr [])
  else Raise (Exc JSONDecodeError "Expecting value: line 1 column 1 (char 0)").

Fixpoint dump (j : json) : string :=
  match j with
  | JNull => "null"
  | JBool b => if b then "true" else "false"
  | JInt n => pretty n
  | JFloat literal => literal
  | JStr s => "<" ++ s ++ ">"
  | JArr items =>
      "[" ++ (fix go (l : list json) : string :=
                match l with
                | [] => EmptyString
                | x :: l' => dump x ++ "," ++ go l'
                end) items ++ "]"
  | JObj fields =>
      "{" ++ (fix go (l : list (string * json)) : string :=
                match l with
                | [] => EmptyString
                | (k, x) :: l' => k ++ ":" ++ dump x ++ "," ++ go l'
                end) fields ++ "}"
  end.

(** Callable 0 raises [KeyError('pca')], callable 1 [KeyError('umap')],
    callable 2 a [ValueError]; the others return [None]. *)
Definition library_call (id : nat) (_ : unit) : M value :=
  match id with
  | 0 => raise (Exc KeyError "'pca'")
  | 1 => raise (Exc KeyError "'umap'")
  | 2 => raise (Exc ValueError "n_components must be positive")
  | _ => mret VNone
  end.

(** A hook that prints the traceback's last line. *)
Definition library_hook (id : nat) (e : exc) : M value :=
  print ("Traceback: " ++ str e);; mret VNone.

(** A kernel that dies on every notebook. *)
Definition execute_notebook (input output : string) : M unit :=
  raise (Exc RuntimeError "Kernel died").

Definition runtime : Runtime :=
  {| call_args := unit;
     json_load := load;
     json_dump := dump;
     builtin_call := library_call;
     builtin_hook := library_hook;
     pm_execute_notebook := execute_notebook |}.

Definition manager : CompatibilityManager := mkManager [] None.

(** A fresh interpreter with the given files and modules. *)
Definition fresh (fs : gmap string string) (mods : gmap string module_state)
  : state :=
  mkState fs ∅ mods ∅ (BuiltinHook 0) manager [] [].

Definition disk : gmap string string :=
  {[ "in.ipynb" := "long"; "exact.ipynb" := "exact";
     "short.ipynb" := "short"; "bad.ipynb" := "not json" ]}.

Definition anndata_new : gmap string module_state :=
  {[ "anndata" := Loaded ∅;
     "anndata.experimental" := Loaded {[ "read_elem_lazy" := VFn 7 ]} ]}.

Definition anndata_old : gmap string module_state :=
  {[ "anndata" := Loaded ∅;
     "anndata.experimental" := Loaded {[ "read_elem_as_dask" := VFn 5 ]} ]}.

Definition anndata_both : gmap string module_state :=
  {[ "anndata" := Loaded ∅;
     "anndata.experimental" :=
       Loaded {[ "read_elem_lazy" := VFn 7; "read_elem_as_dask" := VFn 5 ]} ]}.

Definition scanpy_ok : gmap string module_state :=
  {[ "scanpy" := Loaded ∅;
     "scanpy.plotting" := Loaded {[ "pca" := VFn 0 ]} ]}.

(** [import scanpy] fails on a binary incompatibility, which numpy
    reports as a [ValueError]. *)
Definition scanpy_broken : gmap string module_state :=
  {[ "scanpy" :=
       Broken (Exc ValueError "numpy.dtype size changed, may indicate binary incompatibility") ]}.

End Sample.

(** ** More examples *)

Module Examples.

Import PcaCompatHelpers.

(** An object with [obsm] and [uns], and PCA results in neither. *)
Definition adata_without_pca : gmap string attribute :=
  {[ "obsm" := Keyed {[ "X_umap" ]}; "uns" := Keyed {[ "neighbors" ]} ]}.

(** An object with the embedding in [obsm] and no [uns] at all. *)
Definition adata_obsm_only : gmap string attribute :=
  {[ "obsm" := Keyed {[ "X_pca" ]} ]}.

(** A block that is interrupted from the keyboard while it plots. *)
Definition interrupted : M unit :=
  raise (Exc KeyboardInterrupt "interrupted in sc.pl.pca").

(** A text that [json.load] turns into an object without [cells]. *)
Definition load_headless (text : string) : result json :=
  if String.eqb text "headless" then Ok (JObj [("metadata", JObj [])])
  else Sample.load text.

Definition headless_runtime : Runtime :=
  {| call_args := unit;
     json_load := load_headless;
     json_dump := Sample.dump;
     builtin_call := Sample.library_call;
     builtin_hook := Sample.library_hook;
     pm_execute_notebook := Sample.execute_notebook |}.

Definition headless_disk : gmap string string :=
  {[ "headless.ipynb" := "headless" ]}.

End Examples.

(** * Properties *)

(** ** Running monadic code *)

Lemma bind_ok {A B} (m : M A) (k : A -> M B) st a st' :
  m st = (Ok a, st') -> (m ≫= k) st = k a st'.
Proof. intros Hm. unfold mbind, M_bind. by rewrite Hm. Qed.

Lemma bind_raise {A B} (m : M A) (k : A -> M B) st e st' :
  m st = (Raise e, st') -> (m ≫= k) st = (Raise e, st').
Proof. intros Hm. unfold mbind, M_bind. by rewrite Hm. Qed.

Lemma try_except_ok {A} (body : M A) cls handler st a st' :
  body st = (Ok a, st') -> try_except body cls handler st = (Ok a, st').
Proof. intros Hb. unfold try_except. by rewrite Hb. Qed.

Lemma try_except_caught {A} (body : M A) cls handler st e st' :
  body st = (Raise e, st') -> isinstance e cls = true ->
  try_except body cls handler st = handler e st'.
Proof. intros Hb Hi. unfold try_except. by rewrite Hb, Hi. Qed.

Lemma try_except_passed {A} (body : M A) cls handler st e st' :
  body st = (Raise e, st') -> isinstance e cls = false ->
  try_except body cls handler st = (Raise e, st').
Proof. intros Hb Hi. unfold try_except. by rewrite Hb, Hi. Qed.

Lemma enter_bind {B} name (k : unit -> M B) st :
  (enter name ≫= k) st = k () (set_calls (calls st ++ [name]) st).
Proof. reflexivity. Qed.

Lemma print_bind {B} line (k : unit -> M B) st :
  (print line ≫= k) st = k () (set_stdout (stdout st ++ [line]) st).
Proof. reflexivity. Qed.

(** Unfolds the monad's operations and the state primitives. *)
Ltac run :=
  unfold mbind, M_bind, mret, M_ret, raise, lift, gets, modify, print, enter,
    sys_exit in *;
  simpl in *.

(** ** The notebook editor *)

Section NotebookFacts.

Import Notebook.

Lemma list_insert_at_inserted {A} (i : nat) (x : A) (l : list A) :
  i <= length l -> inserted_at i x l (list_insert_at i x l).
Proof.
  intros Hi. unfold inserted_at, list_insert_at.
  assert (Htake : length (take i l) = i) by (rewrite length_take; lia).
  repeat split.
  - rewrite length_app, Htake. simpl. rewrite length_drop. lia.
  - rewrite lookup_app_r by lia. rewrite Htake, Nat.sub_diag. done.
  - intros j Hj. rewrite lookup_app_l by lia. by apply lookup_take_lt.
  - intros j Hj. rewrite lookup_app_r by lia. rewrite Htake.
    replace (S j - i) with (S (j - i)) by lia. simpl.
    rewrite lookup_drop. f_equal. lia.
Qed.

Lemma assoc_get_set_same k v fields :
  is_Some (assoc_get k fields) -> assoc_get k (assoc_set k v fields) = Some v.
Proof.
  induction fields as [|[k' v'] rest IH]; simpl.
  - intros [? ?]. discriminate.
  - destruct (String.eqb k k') eqn:E; simpl; rewrite E; auto.
Qed.

Lemma assoc_get_set_other k k0 v fields :
  k0 <> k -> assoc_get k0 (assoc_set k v fields) = assoc_get k0 fields.
Proof.
  intros Hne. induction fields as [|[k' v'] rest IH]; simpl; [done|].
  destruct (String.eqb k k') eqn:E; simpl.
  - apply String.eqb_eq in E. subst k'.
    destruct (String.eqb k0 k) eqn:E0; [|done].
    apply String.eqb_eq in E0. congruence.
  - by rewrite IH.
Qed.

Lemma assoc_set_keys k v fields : (assoc_set k v fields).*1 = fields.*1.
Proof.
  induction fields as [|[k' v'] rest IH]; [done|]. simpl.
  destruct (String.eqb k k'); csimpl; [done|]. by rewrite IH.
Qed.

Lemma store_back_getitem nb key old v :
  getitem nb key = Ok old -> getitem (store_back nb key v) key = Ok v.
Proof.
  destruct nb; simpl; try discriminate.
  destruct (assoc_get key fields) eqn:E; [|discriminate]. intros _.
  rewrite assoc_get_set_same; [done|]. rewrite E. eauto.
Qed.

Lemma store_back_same_apart_from nb key old v :
  getitem nb key = Ok old -> same_apart_from key nb (store_back nb key v).
Proof.
  destruct nb; simpl; try discriminate. intros _. split.
  - intros k Hk. simpl. by rewrite assoc_get_set_other.
  - apply assoc_set_keys.
Qed.

Lemma insert_compatibility_cell_long nb cells :
  getitem nb "cells" = Ok (JArr cells) -> 27 <= length cells ->
  insert_compatibility_cell nb =
    Ok (store_back nb "cells"
          (JArr (list_insert_at 26 compatibility_cell cells)), msg_inserted).
Proof.
  intros Hget Hlen. unfold insert_compatibility_cell. rewrite Hget. simpl.
  unfold insert_index.
  destruct (26 <? length cells)%nat eqn:E; [done|].
  apply Nat.ltb_ge in E. lia.
Qed.

Lemma insert_compatibility_cell_short nb cells :
  getitem nb "cells" = Ok (JArr cells) -> length cells < 27 ->
  insert_compatibility_cell nb = Ok (nb, msg_too_short).
Proof.
  intros Hget Hlen. unfold insert_compatibility_cell. rewrite Hget. simpl.
  unfold insert_index.
  destruct (26 <? length cells)%nat eqn:E; [|done].
  apply Nat.ltb_lt in E. lia.
Qed.

End NotebookFacts.

Section NotebookScript.

Import Notebook Files PcaCompatibilityFix.
Context `{Runtime}.

(** What the function does once the document is loaded and edited. *)
Lemma add_pca_compatibility_cell_runs st notebook_path output_path text nb nb' line :
  files st !! notebook_path = Some text ->
  json_load text = Ok nb ->
  insert_compatibility_cell nb = Ok (nb', line) ->
  output_path ∉ readonly st ->
  add_pca_compatibility_cell notebook_path output_path st =
    (Ok true,
     set_files (<[output_path := json_dump nb']> (files st))
               (set_stdout (stdout st ++ [line]) st)).
Proof.
  intros Hfile Hload Hedit Hw.
  unfold add_pca_compatibility_cell, read_text, write_text. run.
  rewrite Hfile, Hload, Hedit. simpl.
  destruct (decide (output_path ∈ readonly st)); [done|]. done.
Qed.

(** C1: a notebook of at least 27 cells comes out one cell longer, with
    the compatibility cell at index 26, the cells 0..25 where they were,
    the cells from 26 on one place further, and the rest of the document
    as it was; the function returns [True] and the file at the output
    path holds that document. *)
Theorem add_pca_compatibility_cell_inserts
    st notebook_path output_path text nb cells :
  files st !! notebook_path = Some text ->
  json_load text = Ok nb ->
  getitem nb "cells" = Ok (JArr cells) ->
  27 <= length cells ->
  output_path ∉ readonly st ->
  exists nb' cells' st',
    add_pca_compatibility_cell notebook_path output_path st = (Ok true, st') /\
    files st' = <[output_path := json_dump nb']> (files st) /\
    getitem nb' "cells" = Ok (JArr cells') /\
    inserted_at 26 compatibility_cell cells cells' /\
    same_apart_from "cells" nb nb'.
Proof.
  intros Hfile Hload Hget Hlen Hw.
  pose proof (insert_compatibility_cell_long nb cells Hget Hlen) as Hedit.
  eexists _, _, _. split.
  { eapply add_pca_compatibility_cell_runs; eauto. }
  split; [done|]. split.
  { eapply store_back_getitem; eauto. }
  split.
  { apply list_insert_at_inserted. lia. }
  eapply store_back_same_apart_from; eauto.
Qed.

(** C9: a notebook of fewer than 27 cells gets no insertion: the
    function returns [True] and the document written to the output path
    is the loaded one. *)
Theorem add_pca_compatibility_cell_too_short
    st notebook_path output_path text nb cells :
  files st !! notebook_path = Some text ->
  json_load text = Ok nb ->
  getitem nb "cells" = Ok (JArr cells) ->
  length cells < 27 ->
  output_path ∉ readonly st ->
  insert_compatibility_cell nb = Ok (nb, msg_too_short) /\
  exists st',
    add_pca_compatibility_cell notebook_path output_path st = (Ok true, st') /\
    files st' = <[output_path := json_dump nb]> (files st).
Proof.
  intros Hfile Hload Hget Hlen Hw.
  pose proof (insert_compatibility_cell_short nb cells Hget Hlen) as Hedit.
  split; [done|]. eexists. split.
  { eapply add_pca_compatibility_cell_runs; eauto. }
  done.
Qed.

End NotebookScript.

Lemma add_pca_compatibility_cell_inserts_witness :
  let st := Sample.fresh Sample.disk ∅ in
  let nb := Sample.notebook 30 in
  (files st !! "in.ipynb" = Some "long" /\
   Sample.load "long" = Ok nb /\
   27 <= length (Sample.cell <$> (Z.of_nat <$> seq 0 30)) /\
   "out.ipynb" ∉ readonly st) /\
  exists nb' cells' st',
    PcaCompatibilityFix.add_pca_compatibility_cell (H := Sample.runtime)
      "in.ipynb" "out.ipynb" st = (Ok true, st') /\
    files st' = <["out.ipynb" := Sample.dump nb']> (files st) /\
    Notebook.getitem nb' "cells" = Ok (JArr cells') /\
    inserted_at 26 Notebook.compatibility_cell
      (Sample.cell <$> (Z.of_nat <$> seq 0 30)) cells' /\
    same_apart_from "cells" nb nb'.
Proof.
  intros st nb.
  assert (Hfile : files st !! "in.ipynb" = Some "long") by reflexivity.
  assert (Hload : Sample.load "long" = Ok nb) by reflexivity.
  assert (Hlen : 27 <= length (Sample.cell <$> (Z.of_nat <$> seq 0 30)))
    by (vm_compute; lia).
  assert (Hw : "out.ipynb" ∉ readonly st) by apply not_elem_of_empty.
  split; [done|].
  exact (add_pca_compatibility_cell_inserts (H := Sample.runtime)
           st "in.ipynb" "out.ipynb" "long" nb _ Hfile Hload eq_refl Hlen Hw).
Defined.

Lemma add_pca_compatibility_cell_too_short_witness :
  let st := Sample.fresh Sample.disk ∅ in
  let nb := Sample.notebook 26 in
  (files st !! "short.ipynb" = Some "short" /\
   Sample.load "short" = Ok nb /\
   length (Sample.cell <$> (Z.of_nat <$> seq 0 26)) < 27 /\
   "out.ipynb" ∉ readonly st) /\
  Notebook.insert_compatibility_cell nb = Ok (nb, Notebook.msg_too_short) /\
  exists st',
    PcaCompatibilityFix.add_pca_compatibility_cell (H := Sample.runtime)
      "short.ipynb" "out.ipynb" st = (Ok true, st') /\
    files st' = <["out.ipynb" := Sample.dump nb]> (files st).
Proof.
  intros st nb.
  assert (Hfile : files st !! "short.ipynb" = Some "short") by reflexivity.
  assert (Hload : Sample.load "short" = Ok nb) by reflexivity.
  assert (Hlen : length (Sample.cell <$> (Z.of_nat <$> seq 0 26)) < 27)
    by (vm_compute; lia).
  assert (Hw : "out.ipynb" ∉ readonly st) by apply not_elem_of_empty.
  split; [done|].
  exact (add_pca_compatibility_cell_too_short (H := Sample.runtime)
           st "short.ipynb" "out.ipynb" "short" nb _ Hfile Hload eq_refl Hlen Hw).
Defined.

(** ** Exit status of the two command-line scripts *)

Section ExitStatus.

Import Notebook Files PcaCompatibilityFix PcaSafeExecution.
Context `{Runtime}.


Lemma copy2_copies src dst st text :
  files st !! src = Some text -> src <> dst -> dst ∉ readonly st ->
  copy2 src dst st = (Ok (), set_files (<[dst := text]> (files st)) st).
Proof.
  intros Hsrc Hne Hw. unfold copy2, read_text, write_text.
  destruct (String.eqb src dst) eqn:E.
  { apply String.eqb_eq in E. done. }
  run. rewrite Hsrc.
  destruct (decide (dst ∈ readonly st)); done.
Qed.

Lemma copy2_status src dst st :
  exit_status ((copy2 src dst;; sys_exit (A := unit) 1) st).1 = 1%Z.
Proof.
  unfold copy2, read_text, write_text.
  destruct (String.eqb src dst); run; [done|].
  destruct (files st !! src); [|done].
  destruct (decide (dst ∈ readonly st)); done.
Qed.


End ExitStatus.



(** ** The alias patch *)

Section AliasPatch.

Import Imports AnndataCompat UnifiedCompat.

Ltac unfold_alias_patch :=
  unfold apply_anndata_compatibility, patch_anndata, try_except,
    import_from, import_module, setattr, append_patch, resolve;
  run.

(** Rewrites with the given facts about the state until the run is over. *)
Ltac exec_with tac := repeat (progress (tac; simpl)).

(** C5: with [read_elem_lazy] importable from [anndata.experimental] and
    [read_elem_as_dask] absent, both alias patches return normally and
    leave [read_elem_as_dask] resolving to the callable that
    [read_elem_lazy] resolves to, before and after. *)
Theorem alias_patch_installs st pkg attrs f :
  modules st !! "anndata" = Some (Loaded pkg) ->
  modules st !! "anndata.experimental" = Some (Loaded attrs) ->
  attrs !! "read_elem_lazy" = Some f ->
  attrs !! "read_elem_as_dask" = None ->
  (exists st',
     apply_anndata_compatibility st = (Ok (), st') /\
     resolve st' "anndata.experimental" "read_elem_as_dask" = Some f /\
     resolve st' "anndata.experimental" "read_elem_lazy" = Some f) /\
  (exists st',
     patch_anndata st = (Ok (), st') /\
     resolve st' "anndata.experimental" "read_elem_as_dask" = Some f /\
     resolve st' "anndata.experimental" "read_elem_lazy" = Some f).
Proof.
  intros Hpkg Hmod Hlazy Hdask.
  split; unfold_alias_patch;
    exec_with ltac:(first [rewrite Hpkg | rewrite Hmod | rewrite Hlazy | rewrite Hdask]);
    eexists; (split; [reflexivity|]); simpl;
    rewrite lookup_insert_eq; split;
    [apply lookup_insert_eq | by rewrite lookup_insert_ne
    |apply lookup_insert_eq | by rewrite lookup_insert_ne].
Qed.

(** C6: with [read_elem_as_dask] already importable from
    [anndata.experimental], both alias patches leave every module's
    attribute table as it was, and the manager records no patch. *)
Theorem alias_patch_keeps_old_name st attrs g :
  modules st !! "anndata.experimental" = Some (Loaded attrs) ->
  attrs !! "read_elem_as_dask" = Some g ->
  (modules (apply_anndata_compatibility st).2 = modules st /\
   compat_manager (apply_anndata_compatibility st).2 = compat_manager st /\
   resolve (apply_anndata_compatibility st).2
     "anndata.experimental" "read_elem_as_dask" = Some g) /\
  (modules (patch_anndata st).2 = modules st /\
   resolve (patch_anndata st).2
     "anndata.experimental" "read_elem_as_dask" = Some g).
Proof.
  intros Hmod Hdask.
  split; unfold_alias_patch;
    destruct (modules st !! "anndata") as [[e|pkg]|] eqn:Hpkg; simpl;
    try destruct (isinstance e Exception); simpl;
    rewrite ?Hmod; simpl;
    try destruct (attrs !! "read_elem_lazy") as [f|] eqn:Hlazy; simpl;
    exec_with ltac:(first [rewrite Hmod | rewrite Hdask]);
    by rewrite ?Hmod.
Qed.

End AliasPatch.

Lemma alias_patch_installs_witness :
  let st := Sample.fresh Sample.disk Sample.anndata_new in
  exists st',
    UnifiedCompat.apply_anndata_compatibility st = (Ok (), st') /\
    resolve st' "anndata.experimental" "read_elem_as_dask" = Some (VFn 7) /\
    resolve st' "anndata.experimental" "read_elem_lazy" = Some (VFn 7).
Proof.
  intros st.
  exact (proj1 (alias_patch_installs st ∅ {[ "read_elem_lazy" := VFn 7 ]} (VFn 7)
                  eq_refl eq_refl eq_refl eq_refl)).
Defined.

Lemma alias_patch_keeps_old_name_witness :
  let st := Sample.fresh Sample.disk Sample.anndata_both in
  modules (AnndataCompat.patch_anndata st).2 = modules st /\
  resolve (AnndataCompat.patch_anndata st).2
    "anndata.experimental" "read_elem_as_dask" = Some (VFn 5).
Proof.
  intros st.
  exact (proj2 (alias_patch_keeps_old_name st
                  {[ "read_elem_lazy" := VFn 7; "read_elem_as_dask" := VFn 5 ]}
                  (VFn 5) eq_refl eq_refl)).
Defined.

(** ** What the patch functions catch *)

Section Catching.

Import Imports AnndataCompat PcaCompat UnifiedCompat.

(** A [try] whose handler always returns lets through exactly the
    exceptions outside the handled class. *)
Lemma try_except_escapes {A} (body : M A) cls handler st e :
  (forall e' s, exists a s', handler e' s = (Ok a, s')) ->
  (try_except body cls handler st).1 = Raise e ->
  isinstance e cls = false /\ (body st).1 = Raise e.
Proof.
  intros Hh. unfold try_except.
  destruct (body st) as [[a|e'] st']; simpl; [discriminate|].
  destruct (isinstance e' cls) eqn:Hi.
  - destruct (Hh e' st') as (a & s' & ->). discriminate.
  - simpl. by intros [= ->].
Qed.

Lemma patch_pca_compatibility_escapes st e :
  (patch_pca_compatibility st).1 = Raise e -> isinstance e ImportError = false.
Proof.
  unfold patch_pca_compatibility, set_builtin. run. unfold try_except.
  match goal with |- context [install_safe_pca InPcaCompat ?s] =>
    destruct (install_safe_pca InPcaCompat s) as [[[]|e'] st'] end;
    simpl; [discriminate|].
  destruct (isinstance e' ImportError) eqn:Hi; simpl; [discriminate|].
  by intros [= ->].
Qed.

Lemma apply_anndata_compatibility_escapes st e :
  (apply_anndata_compatibility st).1 = Raise e -> isinstance e Exception = false.
Proof.
  intros Hr. unfold apply_anndata_compatibility in Hr. rewrite enter_bind in Hr.
  apply try_except_escapes in Hr; [tauto|]. intros. by eexists _, _.
Qed.

Lemma patch_anndata_escapes st e :
  (patch_anndata st).1 = Raise e -> isinstance e Exception = false.
Proof.
  intros Hr. unfold patch_anndata in Hr. rewrite enter_bind in Hr.
  apply try_except_escapes in Hr; [tauto|]. intros. by eexists _, _.
Qed.

Lemma apply_pca_compatibility_escapes st e :
  (apply_pca_compatibility st).1 = Raise e -> isinstance e ImportError = false.
Proof.
  intros Hr. unfold apply_pca_compatibility in Hr. rewrite enter_bind in Hr.
  apply try_except_escapes in Hr; [tauto|]. intros. by eexists _, _.
Qed.

Lemma install_safe_pca_broken origin st e :
  modules st !! "scanpy" = Some (Broken e) ->
  install_safe_pca origin st = (Raise e, st).
Proof.
  intros Hsc. unfold install_safe_pca, import_module. run. by rewrite Hsc.
Qed.

(** C2, amended: the two alias patches catch every exception of class
    [Exception] raised in their body, print a message and return; the two
    PCA patches catch [ImportError] only, and an exception of another
    class raised while scanpy is imported propagates to the caller;
    [apply_general_resilience] has no handler, and none of its
    statements raises. *)
Theorem patch_functions_catching st :
  (forall e, (apply_anndata_compatibility st).1 = Raise e ->
             isinstance e Exception = false) /\
  (forall e, (patch_anndata st).1 = Raise e ->
             isinstance e Exception = false) /\
  (forall e, modules st !! "anndata" = Some (Broken e) ->
             isinstance e Exception = true ->
             (apply_anndata_compatibility st).1 = Ok () /\
             stdout (apply_anndata_compatibility st).2
               = (stdout st ++ ["⚠️ AnnData patch failed: " +:+ str e])%list /\
             (patch_anndata st).1 = Ok () /\
             stdout (patch_anndata st).2
               = (stdout st ++ ["⚠️ Patch failed: " +:+ str e])%list) /\
  (forall e, (apply_pca_compatibility st).1 = Raise e ->
             isinstance e ImportError = false) /\
  (forall e, (patch_pca_compatibility st).1 = Raise e ->
             isinstance e ImportError = false) /\
  (forall e, modules st !! "scanpy" = Some (Broken e) ->
             isinstance e ImportError = false ->
             (apply_pca_compatibility st).1 = Raise e /\
             (patch_pca_compatibility st).1 = Raise e) /\
  (apply_general_resilience st).1 = Ok ().
Proof.
  split; [|split; [|split; [|split; [|split; [|split]]]]].
  - apply apply_anndata_compatibility_escapes.
  - apply patch_anndata_escapes.
  - intros e Hpkg Hexc.
    unfold apply_anndata_compatibility, patch_anndata, try_except, import_module.
    run. rewrite Hpkg. simpl. rewrite Hexc. done.
  - apply apply_pca_compatibility_escapes.
  - apply patch_pca_compatibility_escapes.
  - intros e Hsc Hexc.
    unfold apply_pca_compatibility, patch_pca_compatibility, try_except.
    run. rewrite !(install_safe_pca_broken _ _ e) by done. simpl.
    rewrite Hexc. done.
  - done.
Qed.

End Catching.

Lemma patch_functions_catching_witness :
  let st := Sample.fresh Sample.disk Sample.scanpy_broken in
  let e := Exc ValueError "numpy.dtype size changed, may indicate binary incompatibility" in
  (modules st !! "scanpy" = Some (Broken e) /\ isinstance e ImportError = false) /\
  (UnifiedCompat.apply_pca_compatibility st).1 = Raise e /\
  (PcaCompat.patch_pca_compatibility st).1 = Raise e.
Proof.
  intros st e.
  assert (Hsc : modules st !! "scanpy" = Some (Broken e)) by reflexivity.
  assert (Hexc : isinstance e ImportError = false) by reflexivity.
  split; [done|].
  destruct (patch_functions_catching st) as (_ & _ & _ & _ & _ & Hpass & _).
  exact (Hpass e Hsc Hexc).
Defined.

(** C2 fails as stated: when [import scanpy] raises a [ValueError], both
    PCA patches let it through, and nothing is printed for it. *)
Lemma pca_patch_propagates :
  let st := Sample.fresh Sample.disk Sample.scanpy_broken in
  let e := Exc ValueError "numpy.dtype size changed, may indicate binary incompatibility" in
  UnifiedCompat.apply_pca_compatibility st
    = (Raise e, set_calls ["apply_pca_compatibility"] st) /\
  (PcaCompat.patch_pca_compatibility st).1 = Raise e.
Proof. vm_compute. done. Qed.

(** ** The plotting wrapper *)

Section SafePca.

Import PyStr Imports Calls PcaCompat UnifiedCompat.
Context `{Runtime}.

Lemma getattr_resolved st name attr v :
  resolve st name attr = Some v -> getattr name attr st = (Ok v, st).
Proof.
  unfold resolve, getattr.
  destruct (modules st !! name) as [[e|attrs]|]; try discriminate.
  by intros ->.
Qed.

(** One frame of [safe_pca]: the wrapper in terms of the call it wraps. *)
Lemma call_safe_pca depth origin original a st :
  resolve st "scanpy.plotting" "_original_pca" = Some original ->
  call (S depth) (VSafePca origin) a st =
    try_except (call depth original a) KeyError
      (fun e => if contains "pca" (str e)
                then safe_pca_report origin;; mret VNone
                else raise e) st.
Proof.
  intros Hres. simpl. unfold try_except.
  rewrite (bind_ok _ _ _ _ _ (getattr_resolved _ _ _ _ Hres)). done.
Qed.

(** C4: a call of [safe_pca] returns [None] when the wrapped original
    raises a [KeyError] whose text contains [pca], lets every other
    exception of the original through as it is, and otherwise returns what
    the original returned. *)
Theorem safe_pca_outcomes depth origin original a st :
  resolve st "scanpy.plotting" "_original_pca" = Some original ->
  (forall e st',
     call depth original a st = (Raise e, st') ->
     isinstance e KeyError = true -> contains "pca" (str e) = true ->
     call (S depth) (VSafePca origin) a st
       = (Ok VNone, (safe_pca_report origin st').2)) /\
  (forall e st',
     call depth original a st = (Raise e, st') ->
     isinstance e KeyError = true -> contains "pca" (str e) = false ->
     call (S depth) (VSafePca origin) a st = (Raise e, st')) /\
  (forall e st',
     call depth original a st = (Raise e, st') ->
     isinstance e KeyError = false ->
     call (S depth) (VSafePca origin) a st = (Raise e, st')) /\
  (forall v st',
     call depth original a st = (Ok v, st') ->
     call (S depth) (VSafePca origin) a st = (Ok v, st')).
Proof.
  intros Hres. rewrite (call_safe_pca _ _ _ _ _ Hres).
  split; [|split; [|split]].
  - intros e st' Hcall Hkey Hpca.
    rewrite (try_except_caught _ _ _ _ _ _ Hcall Hkey), Hpca.
    by destruct origin.
  - intros e st' Hcall Hkey Hpca.
    by rewrite (try_except_caught _ _ _ _ _ _ Hcall Hkey), Hpca.
  - intros e st' Hcall Hkey. by apply try_except_passed.
  - intros v st' Hcall. by apply try_except_ok.
Qed.

(** The wrapper is what [apply_pca_compatibility] leaves under
    [scanpy.plotting.pca], with the function found there kept under
    [_original_pca]. *)
Lemma apply_pca_compatibility_installs st pkg attrs pca :
  modules st !! "scanpy" = Some (Loaded pkg) ->
  modules st !! "scanpy.plotting" = Some (Loaded attrs) ->
  attrs !! "_original_pca" = None ->
  attrs !! "pca" = Some pca ->
  (apply_pca_compatibility st).1 = Ok () /\
  resolve (apply_pca_compatibility st).2 "scanpy.plotting" "pca"
    = Some (VSafePca InUnifiedCompat) /\
  resolve (apply_pca_compatibility st).2 "scanpy.plotting" "_original_pca"
    = Some pca.
Proof.
  intros Hsc Hpl Horig Hpca.
  unfold apply_pca_compatibility, install_safe_pca, try_except, import_module,
    hasattr, getattr, setattr, append_patch, resolve.
  run. rewrite Hsc. simpl. rewrite Hpl. simpl. rewrite Hpl, Horig. simpl.
  rewrite Hpl. simpl. rewrite Hpca. simpl. rewrite Hpl. simpl.
  rewrite !lookup_insert_eq. simpl. rewrite lookup_insert_eq.
  split; [done|]. split; [apply lookup_insert_eq|].
  rewrite lookup_insert_ne by done. apply lookup_insert_eq.
Qed.

End SafePca.

Lemma safe_pca_outcomes_witness :
  let st := (UnifiedCompat.apply_pca_compatibility
               (Sample.fresh Sample.disk Sample.scanpy_ok)).2 in
  let e := Exc KeyError "'pca'" in
  (resolve st "scanpy.plotting" "_original_pca" = Some (VFn 0) /\
   Calls.call (H := Sample.runtime) 7 (VFn 0) () st = (Raise e, st) /\
   isinstance e KeyError = true /\ PyStr.contains "pca" (str e) = true) /\
  Calls.call (H := Sample.runtime) 8 (VSafePca InUnifiedCompat) () st
    = (Ok VNone, (Calls.safe_pca_report InUnifiedCompat st).2).
Proof.
  intros st e.
  assert (Hres : resolve st "scanpy.plotting" "_original_pca" = Some (VFn 0))
    by (vm_compute; reflexivity).
  assert (Hcall : Calls.call (H := Sample.runtime) 7 (VFn 0) () st = (Raise e, st))
    by reflexivity.
  assert (Hkey : isinstance e KeyError = true) by reflexivity.
  assert (Hpca : PyStr.contains "pca" (str e) = true) by reflexivity.
  split; [done|].
  exact (proj1 (safe_pca_outcomes (H := Sample.runtime) 7 InUnifiedCompat (VFn 0) () st Hres)
           e st Hcall Hkey Hpca).
Defined.

(** ** The exception hook *)

Section Resilience.

Import PyStr UnifiedCompat.
Context `{Runtime}.

Lemma any_in_resilience_keywords msg :
  any_in resilience_keywords msg =
    contains "keyerror: 'pca'" msg || contains "pca" msg || contains "plotting" msg.
Proof.
  unfold any_in, resilience_keywords. simpl.
  by rewrite orb_false_r, orb_assoc.
Qed.

Lemma call_hook_resilient original exc_value :
  call_hook (ResilientHook original) exc_value =
    if any_in resilience_keywords (lower (str exc_value)) then
      print "🛡️ Handled known plotting error gracefully";;
      print ("   Error: " +:+ str exc_value);;
      print "   Notebook execution continues...";;
      mret VNone
    else call_hook original exc_value.
Proof. reflexivity. Qed.

(** C8: [apply_general_resilience] installs a hook around the hook it
    found. Called with an exception, the new hook returns [None] after
    three printed lines, the old hook not called, exactly when the
    lowercased text of the exception contains [keyerror: 'pca'], [pca] or
    [plotting]; on any other exception it is the call of the old hook. *)
Theorem resilient_excepthook_behaviour st exc_value s :
  let installed := (apply_general_resilience st).2 in
  let error_msg := lower (str exc_value) in
  (apply_general_resilience st).1 = Ok () /\
  excepthook installed = ResilientHook (excepthook st) /\
  call_hook (excepthook installed) exc_value s =
    if contains "keyerror: 'pca'" error_msg || contains "pca" error_msg
       || contains "plotting" error_msg
    then (Ok VNone,
          set_stdout (stdout s ++ [ "🛡️ Handled known plotting error gracefully";
                                    "   Error: " +:+ str exc_value;
                                    "   Notebook execution continues..." ])%list s)
    else call_hook (excepthook st) exc_value s.
Proof.
  intros installed error_msg. split; [done|]. split; [done|].
  change (excepthook installed) with (ResilientHook (excepthook st)).
  rewrite call_hook_resilient, any_in_resilience_keywords. fold error_msg.
  destruct (contains "keyerror: 'pca'" error_msg || contains "pca" error_msg
            || contains "plotting" error_msg); [|done].
  run. by rewrite <- !app_assoc.
Qed.

End Resilience.

(** ** The dispatcher *)

Section Dispatcher.

Import PyStr Imports PcaCompat UnifiedCompat.

Lemma name_in_unrecognised name :
  name ∉ recognised ->
  name_in (Some name) ["01_scRNA_analysis_preprocessing"] = false /\
  name_in (Some name) ["04_scRNA_analysis_dask_out_of_core";
                       "05_scRNA_analysis_multi_GPU"] = false.
Proof.
  intros Hnot. unfold name_in, recognised in *. simpl.
  split; repeat match goal with
    | |- context [String.eqb name ?s] =>
        let E := fresh "E" in
        destruct (String.eqb name s) eqn:E;
        [apply String.eqb_eq in E; subst name; exfalso; apply Hnot;
         repeat constructor|]
    end; done.
Qed.

(** C7, amended: for a notebook name that is not empty and not one of the
    three recognised names, the dispatcher is a call of
    [apply_general_resilience] and of nothing else: it returns normally,
    the functions entered are the dispatcher and
    [apply_general_resilience], and no module's attribute table
    changes. *)
Theorem unrecognised_name_general_only st name :
  notebook_name (compat_manager st) = Some name ->
  name <> EmptyString ->
  name ∉ recognised ->
  apply_notebook_specific_patches st =
    apply_general_resilience
      (set_stdout (stdout st ++ ["🎯 Applying patches for " +:+ name])%list
         (set_calls (calls st ++ ["apply_notebook_specific_patches"]) st)) /\
  (apply_notebook_specific_patches st).1 = Ok () /\
  calls (apply_notebook_specific_patches st).2 =
    (calls st ++ ["apply_notebook_specific_patches"; "apply_general_resilience"])%list /\
  modules (apply_notebook_specific_patches st).2 = modules st.
Proof.
  intros Hname Hne Hnot.
  destruct (name_in_unrecognised name Hnot) as [H01 H0405].
  assert (Hrun : apply_notebook_specific_patches st =
    apply_general_resilience
      (set_stdout (stdout st ++ ["🎯 Applying patches for " +:+ name])%list
         (set_calls (calls st ++ ["apply_notebook_specific_patches"]) st))).
  { unfold apply_notebook_specific_patches. rewrite enter_bind.
    unfold mbind at 1, M_bind at 1, gets at 1. cbv beta iota.
    change (notebook_name (compat_manager (set_calls _ st)))
      with (notebook_name (compat_manager st)).
    rewrite Hname. unfold truthy.
    destruct (String.eqb name EmptyString) eqn:E; [by apply String.eqb_eq in E|].
    cbv beta iota delta [negb]. rewrite print_bind, H01, H0405. done. }
  split; [exact Hrun|]. rewrite Hrun. split; [done|]. split; [|done].
  simpl. by rewrite <- app_assoc.
Qed.

(** Case analysis on every [match] of the goal, innermost first. *)
Ltac case_all :=
  repeat (match goal with
          | |- context [match ?x with _ => _ end] =>
              match x with
              | context [match _ with _ => _ end] => fail 1
              | _ => destruct x eqn:?
              end
          end; simpl in *).

Lemma apply_anndata_compatibility_frame st :
  calls (apply_anndata_compatibility st).2
    = (calls st ++ ["apply_anndata_compatibility"])%list /\
  excepthook (apply_anndata_compatibility st).2 = excepthook st.
Proof.
  unfold apply_anndata_compatibility, try_except, import_from, import_module,
    setattr, append_patch.
  run. case_all; done.
Qed.

Lemma apply_pca_compatibility_frame st :
  calls (apply_pca_compatibility st).2
    = (calls st ++ ["apply_pca_compatibility"])%list /\
  excepthook (apply_pca_compatibility st).2 = excepthook st.
Proof.
  unfold apply_pca_compatibility, install_safe_pca, try_except, import_module,
    hasattr, getattr, setattr, append_patch.
  run. case_all; done.
Qed.

Lemma not_Exception_not_ImportError e :
  isinstance e Exception = false -> isinstance e ImportError = false.
Proof. destruct e as [[] msg|code]; vm_compute; congruence. Qed.

(** Without a context the dispatcher is the three patches in a row. *)
Lemma no_context_dispatch st :
  truthy (notebook_name (compat_manager st)) = false ->
  apply_notebook_specific_patches st =
    (apply_anndata_compatibility;; apply_pca_compatibility;;
     apply_general_resilience)
      (set_stdout (stdout st ++ ["⚠️ No notebook context set, applying all patches";
                                 "🔧 Applying all compatibility patches..."])%list
         (set_calls (calls st ++ ["apply_notebook_specific_patches";
                                  "apply_all_patches"])%list st)).
Proof.
  intros Hname. unfold apply_notebook_specific_patches. rewrite enter_bind.
  unfold mbind at 1, M_bind at 1, gets at 1. cbv beta iota.
  change (notebook_name (compat_manager (set_calls _ st)))
    with (notebook_name (compat_manager st)).
  rewrite Hname. cbv beta iota delta [negb].
  rewrite print_bind. unfold apply_all_patches. rewrite enter_bind, print_bind.
  simpl. by rewrite <- !app_assoc.
Qed.

(** C10, amended: with no notebook context (the name is [None], or
    empty) the dispatcher takes [apply_all_patches], which runs the three
    patches in a row. [apply_anndata_compatibility] is entered first;
    when it returns, [apply_pca_compatibility] is entered in the state it
    left; when that returns, [apply_general_resilience] is entered, the
    dispatcher returns and the hook is replaced. When the alias patch or
    the PCA patch lets an exception through (the first what is no
    [Exception], the second what is no [ImportError]), the dispatcher
    raises that exception in the state the patch left:
    [apply_general_resilience] is not entered and the hook is as it
    was. *)
Theorem no_context_applies_all st :
  truthy (notebook_name (compat_manager st)) = false ->
  let run := apply_notebook_specific_patches st in
  let started :=
    set_stdout (stdout st ++ ["⚠️ No notebook context set, applying all patches";
                              "🔧 Applying all compatibility patches..."])%list
      (set_calls (calls st ++ ["apply_notebook_specific_patches";
                               "apply_all_patches"])%list st) in
  let alias := apply_anndata_compatibility started in
  let pca := apply_pca_compatibility alias.2 in
  let entered := (calls st ++ ["apply_notebook_specific_patches"; "apply_all_patches";
                               "apply_anndata_compatibility"])%list in
  calls alias.2 = entered /\
  match alias.1 with
  | Raise e =>
      run = (Raise e, alias.2) /\
      isinstance e Exception = false /\
      excepthook run.2 = excepthook st
  | Ok _ =>
      calls pca.2 = (entered ++ ["apply_pca_compatibility"])%list /\
      match pca.1 with
      | Raise e =>
          run = (Raise e, pca.2) /\
          isinstance e ImportError = false /\
          excepthook run.2 = excepthook st
      | Ok _ =>
          run = apply_general_resilience pca.2 /\
          run.1 = Ok () /\
          calls run.2 = (entered ++ ["apply_pca_compatibility";
                                     "apply_general_resilience"])%list /\
          excepthook run.2 = ResilientHook (excepthook st)
      end
  end.
Proof.
  intros Hname run started alias pca entered. subst run alias pca.
  rewrite (no_context_dispatch st Hname). fold started.
  assert (Hc1 : (calls started ++ ["apply_anndata_compatibility"])%list = entered).
  { subst started entered. simpl. by rewrite <- app_assoc. }
  pose proof (apply_anndata_compatibility_frame started) as [Hc2 Hh2].
  pose proof (apply_anndata_compatibility_escapes started) as He2.
  rewrite Hc1 in Hc2. change (excepthook started) with (excepthook st) in Hh2.
  destruct (apply_anndata_compatibility started) as [[[]|e2] st2] eqn:HA;
    simpl in Hc2, Hh2, He2 |- *.
  2:{ rewrite (bind_raise _ _ _ _ _ HA). simpl.
      split; [exact Hc2|]. split; [done|]. split; [by apply He2|exact Hh2]. }
  split; [exact Hc2|].
  rewrite (bind_ok _ _ _ _ _ HA).
  pose proof (apply_pca_compatibility_frame st2) as [Hc3 Hh3].
  pose proof (apply_pca_compatibility_escapes st2) as He3.
  rewrite Hc2 in Hc3. rewrite Hh2 in Hh3.
  destruct (apply_pca_compatibility st2) as [[[]|e3] st3] eqn:HB;
    simpl in Hc3, Hh3, He3 |- *.
  - split; [exact Hc3|]. rewrite (bind_ok _ _ _ _ _ HB). simpl.
    rewrite Hc3, Hh3, <- !app_assoc. done.
  - split; [exact Hc3|]. rewrite (bind_raise _ _ _ _ _ HB). simpl.
    split; [done|]. split; [by apply He3|exact Hh3].
Qed.

End Dispatcher.

Lemma unrecognised_name_general_only_witness :
  let st := (UnifiedCompat.set_notebook_context (Some "02_scRNA_analysis_extended")
               (Sample.fresh Sample.disk Sample.scanpy_ok)).2 in
  (notebook_name (compat_manager st) = Some "02_scRNA_analysis_extended" /\
   "02_scRNA_analysis_extended" <> EmptyString /\
   "02_scRNA_analysis_extended" ∉ recognised) /\
  (UnifiedCompat.apply_notebook_specific_patches st).1 = Ok () /\
  calls (UnifiedCompat.apply_notebook_specific_patches st).2 =
    (calls st ++ ["apply_notebook_specific_patches"; "apply_general_resilience"])%list /\
  modules (UnifiedCompat.apply_notebook_specific_patches st).2 = modules st.
Proof.
  intros st.
  assert (Hname : notebook_name (compat_manager st) = Some "02_scRNA_analysis_extended")
    by reflexivity.
  assert (Hne : "02_scRNA_analysis_extended" <> EmptyString) by discriminate.
  assert (Hnot : "02_scRNA_analysis_extended" ∉ recognised).
  { intros Hin%list_elem_of_In. simpl in Hin. intuition discriminate. }
  split; [done|].
  exact (proj2 (unrecognised_name_general_only st _ Hname Hne Hnot)).
Defined.

(** C7 fails as stated: the empty string is a name that can be set and is
    none of the three, and with it the dispatcher enters all three
    patches and replaces [scanpy.plotting.pca]. *)
Lemma empty_name_applies_all :
  let st := (UnifiedCompat.set_notebook_context (Some EmptyString)
               (Sample.fresh Sample.disk Sample.scanpy_ok)).2 in
  notebook_name (compat_manager st) = Some EmptyString /\
  (EmptyString ∉ recognised) /\
  calls (UnifiedCompat.apply_notebook_specific_patches st).2 =
    [ "set_notebook_context"; "apply_notebook_specific_patches";
      "apply_all_patches"; "apply_anndata_compatibility";
      "apply_pca_compatibility"; "apply_general_resilience" ] /\
  resolve (UnifiedCompat.apply_notebook_specific_patches st).2
    "scanpy.plotting" "pca" = Some (VSafePca InUnifiedCompat).
Proof.
  intros st. split; [reflexivity|]. split.
  { intros Hin%list_elem_of_In. simpl in Hin. intuition discriminate. }
  split; vm_compute; reflexivity.
Qed.

Lemma no_context_applies_all_witness :
  let st := Sample.fresh Sample.disk Sample.scanpy_ok in
  let run := UnifiedCompat.apply_notebook_specific_patches st in
  UnifiedCompat.truthy (notebook_name (compat_manager st)) = false /\
  run.1 = Ok () /\
  calls run.2 = [ "apply_notebook_specific_patches"; "apply_all_patches";
                  "apply_anndata_compatibility"; "apply_pca_compatibility";
                  "apply_general_resilience" ] /\
  excepthook run.2 = ResilientHook (BuiltinHook 0).
Proof.
  intros st run.
  assert (Hname : UnifiedCompat.truthy (notebook_name (compat_manager st)) = false)
    by reflexivity.
  split; [done|].
  pose proof (no_context_applies_all st Hname) as Hrun.
  vm_compute in Hrun.
  destruct Hrun as (_ & _ & _ & Hok & Hcalls & Hhook).
  split; [exact Hok|]. split; [exact Hcalls|exact Hhook].
Defined.

(** C10 fails as stated: with no context and an [import scanpy] that
    raises a [ValueError], the dispatcher raises it after the alias and
    PCA patches; [apply_general_resilience] is not entered and the hook is
    not replaced. *)
Lemma no_context_without_resilience :
  let st := Sample.fresh Sample.disk Sample.scanpy_broken in
  let run := UnifiedCompat.apply_notebook_specific_patches st in
  notebook_name (compat_manager st) = None /\
  run.1 = Raise (Exc ValueError
                   "numpy.dtype size changed, may indicate binary incompatibility") /\
  calls run.2 = [ "apply_notebook_specific_patches"; "apply_all_patches";
                  "apply_anndata_compatibility"; "apply_pca_compatibility" ] /\
  excepthook run.2 = excepthook st.
Proof. vm_compute. done. Qed.

(** * Further properties *)

(** ** Frame conditions through the monad *)

Section Keeping.

Context (R : state -> state -> Prop) `{!PreOrder R}.

Lemma keeps_ret {A} (a : A) : keeps R (mret a).
Proof. intros st. simpl. reflexivity. Qed.

Lemma keeps_raise {A} e : keeps R (raise (A := A) e).
Proof. intros st. simpl. reflexivity. Qed.

Lemma keeps_lift {A} (r : result A) : keeps R (lift r).
Proof. intros st. simpl. reflexivity. Qed.

Lemma keeps_gets {A} (f : state -> A) : keeps R (gets f).
Proof. intros st. simpl. reflexivity. Qed.

Lemma keeps_bind {A B} (m : M A) (k : A -> M B) :
  keeps R m -> (forall a, keeps R (k a)) -> keeps R (m ≫= k).
Proof.
  intros Hm Hk st. specialize (Hm st). unfold mbind, M_bind.
  destruct (m st) as [[a|e] st']; simpl in *; [|done].
  etrans; [exact Hm|apply Hk].
Qed.

Lemma keeps_try_except {A} (body : M A) cls handler :
  keeps R body -> (forall e, keeps R (handler e)) ->
  keeps R (try_except body cls handler).
Proof.
  intros Hb Hh st. specialize (Hb st). unfold try_except.
  destruct (body st) as [[a|e] st']; simpl in *; [done|].
  destruct (isinstance e cls); [|done].
  etrans; [exact Hb|apply Hh].
Qed.

End Keeping.

#[local] Instance same_files_preorder : PreOrder same_files.
Proof.
  split; [by split|]. intros x y z [? ?] [? ?]. split; congruence.
Qed.

#[local] Instance same_files_except_preorder path :
  PreOrder (same_files_except path).
Proof.
  split; [by split|]. intros x y z [H1 ?] [H2 ?].
  split; [|congruence]. intros p Hp. by rewrite H2, H1.
Qed.

#[local] Instance same_modules_except_preorder name :
  PreOrder (same_modules_except name).
Proof.
  split; [done|]. intros x y z H1 H2 k Hk. by rewrite H2, H1.
Qed.

#[local] Instance manager_grows_preorder : PreOrder manager_grows.
Proof.
  split.
  - intros x. split; [done|]. exists []. by rewrite app_nil_r.
  - intros x y z [Hn1 [m1 H1]] [Hn2 [m2 H2]]. split; [congruence|].
    exists (m1 ++ m2)%list. by rewrite H2, H1, app_assoc.
Qed.

(** Splits a frame condition along the structure of the code. *)
Ltac keeps_step :=
  match goal with
  | |- keeps _ (mbind _ _) => apply keeps_bind; [apply _| |intros ?]
  | |- keeps _ (try_except _ _ _) => apply keeps_try_except; [apply _| |intros ?]
  | |- keeps _ (mret _) => apply keeps_ret; apply _
  | |- keeps _ (raise _) => apply keeps_raise; apply _
  | |- keeps _ (lift _) => apply keeps_lift; apply _
  | |- keeps _ (gets _) => apply keeps_gets; apply _
  | |- keeps _ (sys_exit _) => apply keeps_raise; apply _
  | |- keeps _ (match ?x with _ => _ end) => destruct x
  end.

(** A statement that is not a sequence: by the definitions. *)
Ltac keeps_leaf :=
  let st := fresh "st" in
  intros st;
  unfold print, enter, modify, Imports.setattr, Imports.set_builtin,
    Imports.getattr, Imports.hasattr, Imports.import_module,
    UnifiedCompat.append_patch, Files.read_text, Files.write_text,
    same_files, same_files_except, same_modules_except, manager_grows;
  simpl;
  repeat case_match; simpl;
  repeat split; auto;
  try (intros; rewrite ?lookup_insert_ne by done; done).

Ltac keeps_auto := repeat keeps_step; try solve [keeps_leaf].

(** ** More on the notebook editor *)

Section EditorExtras.

Import Notebook Files PcaCompatibilityFix.
Context `{Runtime}.

(** X1: a document that is an object without the key [cells] makes
    [add_pca_compatibility_cell] raise [KeyError('cells')] before anything
    is printed or written; the script then exits with 1 and, the paths
    differing and the output being writable, leaves a copy of the input
    file at the output path. *)
Theorem missing_cells_key_fails
    st argv0 notebook_path output_path text fields :
  files st !! notebook_path = Some text ->
  json_load text = Ok (JObj fields) ->
  assoc_get "cells" fields = None ->
  add_pca_compatibility_cell notebook_path output_path st
    = (Raise (Exc KeyError "'cells'"), st) /\
  exit_status (main [argv0; notebook_path; output_path] st).1 = 1%Z /\
  (notebook_path <> output_path -> output_path ∉ readonly st ->
   files (main [argv0; notebook_path; output_path] st).2
   = <[output_path := text]> (files st)).
Proof.
  intros Hfile Hload Hkey.
  assert (Hadd : add_pca_compatibility_cell notebook_path output_path st
                 = (Raise (Exc KeyError "'cells'"), st)).
  { unfold add_pca_compatibility_cell, read_text. run.
    rewrite Hfile, Hload. unfold insert_compatibility_cell. simpl.
    by rewrite Hkey. }
  split; [exact Hadd|].
  assert (Hmain : main [argv0; notebook_path; output_path] st
      = (copy2 notebook_path output_path;; sys_exit (A := unit) 1)
          (set_stdout (stdout st ++ ["❌ Failed to create compatibility fix: 'cells'"]) st)).
  { unfold main, try_except. by rewrite (bind_raise _ _ _ _ _ Hadd). }
  rewrite Hmain. split; [apply copy2_status|].
  intros Hne Hw. erewrite bind_ok; [|by apply copy2_copies]. done.
Qed.

(** X2: whatever the editor script does, it writes to no path but the
    output path: every other file, the input notebook among them when
    the two paths differ, is as it was. *)
Theorem editor_writes_output_only argv0 notebook_path output_path st :
  same_files_except output_path st
    (main [argv0; notebook_path; output_path] st).2.
Proof.
  revert st. change (keeps (same_files_except output_path)
                       (main [argv0; notebook_path; output_path])).
  unfold main, add_pca_compatibility_cell, copy2. keeps_auto.
Qed.

(** X3: started with anything but two arguments, each of the two
    command-line scripts prints its usage line and exits with 1, and
    does nothing else: no file is read or written, no patch function is
    entered. *)
Theorem wrong_argument_count_usage (argv : list string) st :
  length argv <> 3 ->
  main argv st
    = (Raise (SysExit 1), set_stdout (stdout st ++ [usage]) st) /\
  PcaSafeExecution.main argv st
    = (Raise (SysExit 1),
       set_stdout (stdout st ++ [PcaSafeExecution.usage]) st).
Proof.
  intros Hlen.
  destruct argv as [|a0 [|a1 [|a2 [|a3 rest]]]]; simpl in Hlen; try done.
Qed.

(** X4: the editor does not look for a cell it put in earlier: run on its
    own result, it puts in a second compatibility cell, so that the
    notebook is two cells longer, with the cell at indices 26 and 27 and
    the original cells from 26 on two places further. *)
Theorem insertion_repeats nb cells :
  getitem nb "cells" = Ok (JArr cells) ->
  27 <= length cells ->
  exists nb1 nb2 cells2,
    insert_compatibility_cell nb = Ok (nb1, msg_inserted) /\
    insert_compatibility_cell nb1 = Ok (nb2, msg_inserted) /\
    getitem nb2 "cells" = Ok (JArr cells2) /\
    length cells2 = 2 + length cells /\
    cells2 !! 26 = Some compatibility_cell /\
    cells2 !! 27 = Some compatibility_cell /\
    (forall j, j < 26 -> cells2 !! j = cells !! j) /\
    (forall j, 26 <= j -> cells2 !! (2 + j) = cells !! j).
Proof.
  intros Hget Hlen.
  set (cells1 := list_insert_at 26 compatibility_cell cells).
  set (nb1 := store_back nb "cells" (JArr cells1)).
  destruct (list_insert_at_inserted 26 compatibility_cell cells) as (L1 & A1 & B1 & C1);
    [lia|]. fold cells1 in L1, A1, B1, C1.
  assert (Hget1 : getitem nb1 "cells" = Ok (JArr cells1))
    by (eapply store_back_getitem; eauto).
  destruct (list_insert_at_inserted 26 compatibility_cell cells1) as (L2 & A2 & B2 & C2);
    [lia|].
  exists nb1, (store_back nb1 "cells" (JArr (list_insert_at 26 compatibility_cell cells1))),
    (list_insert_at 26 compatibility_cell cells1).
  split; [by apply insert_compatibility_cell_long|].
  split; [apply insert_compatibility_cell_long; [done|lia]|].
  split; [eapply store_back_getitem; eauto|].
  split; [lia|]. split; [done|].
  split; [by rewrite (C2 26), A1|].
  split; [intros j Hj; by rewrite B2, B1|].
  intros j Hj. simpl. rewrite C2 by lia. by apply C1.
Qed.

End EditorExtras.

Lemma missing_cells_key_fails_witness :
  let st := Sample.fresh Examples.headless_disk ∅ in
  PcaCompatibilityFix.add_pca_compatibility_cell (H := Examples.headless_runtime)
    "headless.ipynb" "out.ipynb" st
    = (Raise (Exc KeyError "'cells'"), st) /\
  files (PcaCompatibilityFix.main (H := Examples.headless_runtime)
           ["fix.py"; "headless.ipynb"; "out.ipynb"] st).2
    = <["out.ipynb" := "headless"]> (files st).
Proof.
  intros st.
  destruct (missing_cells_key_fails (H := Examples.headless_runtime)
              st "fix.py" "headless.ipynb" "out.ipynb" "headless"
              [("metadata", JObj [])] eq_refl eq_refl eq_refl)
    as (Hadd & _ & Hcopy).
  split; [exact Hadd|].
  apply Hcopy; [discriminate|apply not_elem_of_empty].
Defined.

Lemma wrong_argument_count_usage_witness :
  let st := Sample.fresh Sample.disk ∅ in
  PcaCompatibilityFix.main (H := Sample.runtime) ["fix.py"; "in.ipynb"] st
    = (Raise (SysExit 1),
       set_stdout (stdout st ++ [PcaCompatibilityFix.usage]) st) /\
  PcaSafeExecution.main (H := Sample.runtime) ["fix.py"; "in.ipynb"] st
    = (Raise (SysExit 1),
       set_stdout (stdout st ++ [PcaSafeExecution.usage]) st).
Proof.
  intros st.
  apply (wrong_argument_count_usage (H := Sample.runtime) ["fix.py"; "in.ipynb"] st).
  simpl. lia.
Defined.

Lemma insertion_repeats_witness :
  exists nb1 nb2 cells2,
    Notebook.insert_compatibility_cell (Sample.notebook 27)
      = Ok (nb1, Notebook.msg_inserted) /\
    Notebook.insert_compatibility_cell nb1 = Ok (nb2, Notebook.msg_inserted) /\
    Notebook.getitem nb2 "cells" = Ok (JArr cells2) /\
    length cells2 = 2 + length (Sample.cell <$> (Z.of_nat <$> seq 0 27)) /\
    cells2 !! 26 = Some Notebook.compatibility_cell /\
    cells2 !! 27 = Some Notebook.compatibility_cell /\
    (forall j, j < 26 -> cells2 !! j = (Sample.cell <$> (Z.of_nat <$> seq 0 27)) !! j) /\
    (forall j, 26 <= j ->
       cells2 !! (2 + j) = (Sample.cell <$> (Z.of_nat <$> seq 0 27)) !! j).
Proof.
  apply (insertion_repeats (Sample.notebook 27) _ eq_refl).
  vm_compute. lia.
Defined.

(** ** Substrings *)

Section Substrings.

Import PyStr.

Lemma string_app_nil (b : string) : EmptyString +:+ b = b.
Proof. reflexivity. Qed.

Lemma string_app_cons x (a b : string) : String x a +:+ b = String x (a +:+ b).
Proof. reflexivity. Qed.

Lemma string_app_assoc (a b c : string) : (a +:+ b) +:+ c = a +:+ (b +:+ c).
Proof.
  induction a as [|x a IH]; [done|]. by rewrite !string_app_cons, IH.
Qed.

Lemma prefix_split needle hay :
  String.prefix needle hay = true -> exists post, hay = needle +:+ post.
Proof.
  revert hay. induction needle as [|c needle IH]; intros [|d hay]; simpl;
    try discriminate.
  - intros _. by exists EmptyString.
  - intros _. by exists (String d hay).
  - destruct (Ascii.ascii_dec c d) as [->|]; [|discriminate].
    intros [post ->]%IH. exists post. by rewrite string_app_cons.
Qed.

Lemma prefix_app needle post : String.prefix needle (needle +:+ post) = true.
Proof.
  induction needle as [|c needle IH].
  - rewrite string_app_nil. by destruct post.
  - rewrite string_app_cons. simpl. by destruct (Ascii.ascii_dec c c).
Qed.

Lemma contains_nil needle :
  contains needle EmptyString = String.prefix needle EmptyString.
Proof. unfold contains. apply orb_false_r. Qed.

Lemma contains_cons needle d hay :
  contains needle (String d hay)
  = String.prefix needle (String d hay) || contains needle hay.
Proof. reflexivity. Qed.

(** [contains] is the substring test. *)
Lemma contains_split needle hay :
  contains needle hay = true <-> exists pre post, hay = pre +:+ needle +:+ post.
Proof.
  split.
  - induction hay as [|d hay IH].
    + rewrite contains_nil. intros [post Hp]%prefix_split.
      by exists EmptyString, post.
    + rewrite contains_cons. intros [Hp|Hc]%orb_true_iff.
      * apply prefix_split in Hp as [post Hp]. by exists EmptyString, post.
      * destruct (IH Hc) as (pre & post & ->). by exists (String d pre), post.
  - intros (pre & post & ->). induction pre as [|d pre IH].
    + rewrite string_app_nil.
      assert (Hp := prefix_app needle post).
      destruct (needle +:+ post).
      * by rewrite contains_nil.
      * by rewrite contains_cons, Hp.
    + rewrite string_app_cons, contains_cons, IH. apply orb_true_r.
Qed.

Lemma contains_trans a b c :
  contains a b = true -> contains b c = true -> contains a c = true.
Proof.
  intros (p1 & q1 & ->)%contains_split (p2 & q2 & ->)%contains_split.
  apply contains_split. exists (p2 +:+ p1), (q1 +:+ q2).
  by rewrite !string_app_assoc.
Qed.

End Substrings.

(** ** More on the exception hook *)

Section HookExtras.

Import PyStr UnifiedCompat.
Context `{Runtime}.

(** X5: the first keyword of the hook decides nothing: the hook drops an
    exception exactly when its lowercased text contains [pca] or
    [plotting], and hands every other one to the hook it replaced. *)
Theorem hook_decides_on_pca_or_plotting original exc_value s :
  let error_msg := lower (str exc_value) in
  call_hook (ResilientHook original) exc_value s =
    if contains "pca" error_msg || contains "plotting" error_msg
    then (Ok VNone,
          set_stdout (stdout s ++ [ "🛡️ Handled known plotting error gracefully";
                                    "   Error: " +:+ str exc_value;
                                    "   Notebook execution continues..." ])%list s)
    else call_hook original exc_value s.
Proof.
  intros error_msg. rewrite call_hook_resilient, any_in_resilience_keywords.
  fold error_msg.
  assert (Hsub : contains "keyerror: 'pca'" error_msg = true ->
                 contains "pca" error_msg = true).
  { apply contains_trans. reflexivity. }
  destruct (contains "keyerror: 'pca'" error_msg) eqn:Hk;
    [rewrite (Hsub eq_refl)|]; simpl.
  - run. by rewrite <- ?app_assoc.
  - destruct (contains "pca" error_msg || contains "plotting" error_msg); [|done].
    run. by rewrite <- ?app_assoc.
Qed.

Lemma layered_succ n h : layered (S n) h = ResilientHook (layered n h).
Proof. reflexivity. Qed.

Lemma call_hook_layered n h exc_value :
  call_hook (layered (S n) h) exc_value = call_hook (ResilientHook h) exc_value.
Proof.
  induction n as [|n IH]; [done|].
  rewrite layered_succ, call_hook_resilient, IH, call_hook_resilient.
  by destruct (any_in resilience_keywords (lower (str exc_value))).
Qed.

Lemma repeated_succ {A} n (m : M A) st :
  repeated (S n) m st = (m (repeated n m st)).2.
Proof. reflexivity. Qed.

(** X6: [apply_general_resilience] wraps whatever hook it finds, its own
    included: after [n] runs the hook has [n] layers and the manager lists
    [general_resilience] [n] times; yet on every exception the layered
    hook does what a single layer does. *)
Theorem resilience_layers n st exc_value :
  excepthook (repeated n apply_general_resilience st) = layered n (excepthook st) /\
  applied_patches (compat_manager (repeated n apply_general_resilience st))
    = (applied_patches (compat_manager st) ++ replicate n "general_resilience")%list /\
  call_hook (excepthook (repeated (S n) apply_general_resilience st)) exc_value
    = call_hook (ResilientHook (excepthook st)) exc_value.
Proof.
  assert (Hhook : forall k,
    excepthook (repeated k apply_general_resilience st) = layered k (excepthook st)).
  { induction k as [|k IH]; [done|].
    rewrite repeated_succ, layered_succ, <- IH. done. }
  split; [apply Hhook|]. split.
  - induction n as [|n IH]; [by rewrite app_nil_r|].
    rewrite repeated_succ. simpl. rewrite IH, <- app_assoc. f_equal.
    change (replicate n "general_resilience" ++ ["general_resilience"])%list
      with (replicate n "general_resilience" ++ replicate 1 "general_resilience")%list.
    by rewrite <- replicate_add, Nat.add_1_r.
  - rewrite Hhook. apply call_hook_layered.
Qed.

End HookExtras.

(** ** The two guards for blocks of code *)

Section Guards.

Import PyStr UnifiedCompat PcaCompatHelpers.


(** X8: [PCAErrorHandler] goes by the text alone, whatever the class: a
    block's exception is dropped exactly when its lowercased text
    contains [pca], be it an interrupt from the keyboard; a block
    that ends without exception ends the same way under the handler. *)
Theorem PCAErrorHandler_by_text (body : M unit) st :
  match body st with
  | (Ok _, st') => with_PCAErrorHandler body st = (Ok (), st')
  | (Raise e, st') =>
      with_PCAErrorHandler body st =
        if contains "pca" (lower (str e))
        then (Ok (),
              set_stdout
                (stdout st' ++
                   [ "⚠️ PCA plotting error handled gracefully:";
                     "   Error: " +:+ str e;
                     "   This is a known compatibility issue between scanpy versions";
                     "   The notebook execution will continue normally";
                     "   Analysis results are still valid and complete" ])%list st')
        else (Raise e, st')
  end.
Proof.
  unfold with_PCAErrorHandler.
  destruct (body st) as [[[]|e] st']; [by destruct st'|].
  unfold PCAErrorHandler_exit.
  destruct (contains "pca" (lower (str e))); [|done].
  run. by rewrite <- ?app_assoc.
Qed.

End Guards.


(** ** The check published as [ensure_pca_compatibility] *)

Section EnsurePca.

Import PcaCompatHelpers.

(** X9: [ensure_pca_compatibility] never raises, and its answer says
    whether the lookups went through, not whether PCA results exist: it
    is [True] when [obsm] holds [X_pca], or when [obsm] and [uns] are
    both containers, whatever they hold; it is [False] when [obsm], or
    [uns] after an [obsm] without [X_pca], is missing or no container. *)
Theorem ensure_pca_compatibility_answer adata st :
  (ensure_pca_compatibility adata st).1 = Ok (lookups_succeed adata).
Proof.
  unfold ensure_pca_compatibility, lookups_succeed, try_except, pca_locations,
    find_pca_results, object_getattr, key_in.
  destruct (adata !! "obsm") as [[obsm|]|]; [|done|done].
  destruct (decide ("X_pca" ∈ obsm)) as [Hin|Hin].
  { run. run. by rewrite (bool_decide_eq_true_2 _ Hin). }
  run. run. rewrite (bool_decide_eq_false_2 _ Hin).
  destruct (adata !! "uns") as [[uns|]|]; [|done|done].
  simpl. by repeat (case_bool_decide; simpl).
Qed.

(** X10: with [obsm] and [uns] both containers the answer is [True] and
    one report is printed: the first place, in the order [obsm['X_pca']],
    [uns['pca']], [uns['X_pca']], that holds results, or the two-line
    warning that there are none. *)
Theorem ensure_pca_compatibility_report adata obsm uns st :
  adata !! "obsm" = Some (Keyed obsm) ->
  adata !! "uns" = Some (Keyed uns) ->
  ensure_pca_compatibility adata st =
    (Ok true,
     set_stdout
       (stdout st ++
          if decide ("X_pca" ∈ obsm)
          then ["✅ Found PCA results in adata.obsm['X_pca']"]
          else if decide ("pca" ∈ uns)
          then ["✅ Found PCA results in adata.uns['pca']"]
          else if decide ("X_pca" ∈ uns)
          then ["✅ Found PCA results in adata.uns['X_pca']"]
          else [ "⚠️ No PCA results found, this might cause plotting issues";
                 "   Analysis data is still complete and valid" ])%list st).
Proof.
  intros Hobsm Huns.
  unfold ensure_pca_compatibility, try_except, pca_locations,
    find_pca_results, object_getattr, key_in.
  rewrite Hobsm, Huns.
  destruct (decide ("X_pca" ∈ obsm)) as [H1|H1].
  { run. run. by rewrite (bool_decide_eq_true_2 _ H1). }
  destruct (decide ("pca" ∈ uns)) as [H2|H2].
  { run. run. by rewrite (bool_decide_eq_false_2 _ H1), (bool_decide_eq_true_2 _ H2). }
  destruct (decide ("X_pca" ∈ uns)) as [H3|H3].
  { run. run. by rewrite (bool_decide_eq_false_2 _ H1), (bool_decide_eq_false_2 _ H2),
      (bool_decide_eq_true_2 _ H3). }
  run. run. rewrite (bool_decide_eq_false_2 _ H1), (bool_decide_eq_false_2 _ H2),
    (bool_decide_eq_false_2 _ H3). simpl. by rewrite <- app_assoc.
Qed.

End EnsurePca.

Lemma ensure_pca_compatibility_report_witness :
  let st := Sample.fresh Sample.disk ∅ in
  PcaCompatHelpers.ensure_pca_compatibility Examples.adata_without_pca st =
    (Ok true,
     set_stdout
       [ "⚠️ No PCA results found, this might cause plotting issues";
         "   Analysis data is still complete and valid" ] st).
Proof.
  intros st.
  exact (ensure_pca_compatibility_report Examples.adata_without_pca
           {[ "X_umap" ]} {[ "neighbors" ]} st eq_refl eq_refl).
Defined.

(** ** More on the PCA patch *)

Section PcaPatchExtras.

Import Imports PcaCompat UnifiedCompat.

Lemma install_safe_pca_fresh origin st pkg attrs pca :
  modules st !! "scanpy" = Some (Loaded pkg) ->
  modules st !! "scanpy.plotting" = Some (Loaded attrs) ->
  attrs !! "_original_pca" = None ->
  attrs !! "pca" = Some pca ->
  install_safe_pca origin st =
    (Ok (),
     set_stdout (stdout st ++ ["✅ Applied PCA plotting compatibility patch"])
       (set_modules
          (<["scanpy.plotting" :=
               Loaded (<["pca" := VSafePca origin]> (<["_original_pca" := pca]> attrs))]>
             (modules st)) st)).
Proof.
  intros Hsc Hpl Horig Hpca.
  unfold install_safe_pca, import_module, hasattr, getattr, setattr.
  run. rewrite Hsc. simpl. rewrite Hpl. simpl. rewrite Hpl, Horig. simpl.
  rewrite Hpl. simpl. rewrite Hpca. simpl. rewrite Hpl. simpl.
  rewrite lookup_insert_eq. simpl. by rewrite insert_insert_eq.
Qed.

Lemma install_safe_pca_again origin st pkg attrs original :
  modules st !! "scanpy" = Some (Loaded pkg) ->
  modules st !! "scanpy.plotting" = Some (Loaded attrs) ->
  attrs !! "_original_pca" = Some original ->
  install_safe_pca origin st =
    (Ok (),
     set_stdout (stdout st ++ ["✅ Applied PCA plotting compatibility patch"])
       (set_modules
          (<["scanpy.plotting" := Loaded (<["pca" := VSafePca origin]> attrs)]>
             (modules st)) st)).
Proof.
  intros Hsc Hpl Horig.
  unfold install_safe_pca, import_module, hasattr, getattr, setattr.
  run. rewrite Hsc. simpl. rewrite Hpl. simpl. rewrite Hpl, Horig. simpl.
  by rewrite Hpl.
Qed.

(** What the two PCA patches do once [install_safe_pca] has returned. *)
Lemma apply_pca_compatibility_after st st' :
  install_safe_pca InUnifiedCompat
    (set_calls (calls st ++ ["apply_pca_compatibility"]) st) = (Ok (), st') ->
  apply_pca_compatibility st =
    (Ok (),
     set_compat_manager
       (mkManager (applied_patches (compat_manager st') ++ ["pca_plotting_safety"])
                  (notebook_name (compat_manager st'))) st').
Proof.
  intros Hi. unfold apply_pca_compatibility. rewrite enter_bind.
  unfold try_except. by rewrite (bind_ok _ _ _ _ _ Hi).
Qed.

Lemma patch_pca_compatibility_after st st' :
  install_safe_pca InPcaCompat
    (set_stdout (stdout st ++ ["🔧 Applying PCA compatibility patches..."])
       (set_calls (calls st ++ ["patch_pca_compatibility"]) st)) = (Ok (), st') ->
  patch_pca_compatibility st =
    (Ok (),
     set_stdout (stdout st' ++ ["✅ PCA compatibility patches applied successfully"])
       (set_builtins (<["ensure_pca_compatibility" := VEnsurePcaCompatibility]> (builtins st'))
          st')).
Proof.
  intros Hi. unfold patch_pca_compatibility. rewrite enter_bind, print_bind.
  unfold mbind at 1, M_bind at 1, try_except. simpl in Hi |- *. by rewrite Hi.
Qed.

(** X11: when scanpy is not installed the two PCA patches return
    normally after the notice and change no module; the manager records
    nothing, while [patch_pca_compatibility] still publishes
    [ensure_pca_compatibility] and ends on its line of success. *)
Theorem pca_patch_without_scanpy st :
  modules st !! "scanpy" = None ->
  apply_pca_compatibility st =
    (Ok (),
     set_stdout (stdout st ++ ["ℹ️ scanpy not available for PCA patching"])
       (set_calls (calls st ++ ["apply_pca_compatibility"]) st)) /\
  patch_pca_compatibility st =
    (Ok (),
     set_stdout (stdout st ++ [ "🔧 Applying PCA compatibility patches...";
                                "ℹ️ scanpy not available for PCA patching";
                                "✅ PCA compatibility patches applied successfully" ])
       (set_builtins (<["ensure_pca_compatibility" := VEnsurePcaCompatibility]> (builtins st))
          (set_calls (calls st ++ ["patch_pca_compatibility"]) st))).
Proof.
  intros Hsc.
  unfold apply_pca_compatibility, patch_pca_compatibility, install_safe_pca,
    try_except, import_module, set_builtin.
  run. rewrite Hsc. run. split; [done|]. by rewrite <- !app_assoc.
Qed.

(** X12: the guard on [_original_pca] keeps the wrapper from wrapping
    itself: after a second run of the patch, from either file,
    [_original_pca] is still the function found at the first run and
    [pca] is the wrapper, while the manager lists the patch once per
    run. *)
Theorem reinstall_keeps_original st pkg attrs pca :
  modules st !! "scanpy" = Some (Loaded pkg) ->
  modules st !! "scanpy.plotting" = Some (Loaded attrs) ->
  attrs !! "_original_pca" = None ->
  attrs !! "pca" = Some pca ->
  let twice := (apply_pca_compatibility (apply_pca_compatibility st).2).2 in
  let mixed := (apply_pca_compatibility (patch_pca_compatibility st).2).2 in
  resolve twice "scanpy.plotting" "_original_pca" = Some pca /\
  resolve twice "scanpy.plotting" "pca" = Some (VSafePca InUnifiedCompat) /\
  applied_patches (compat_manager twice)
    = (applied_patches (compat_manager st)
       ++ ["pca_plotting_safety"; "pca_plotting_safety"])%list /\
  resolve mixed "scanpy.plotting" "_original_pca" = Some pca /\
  resolve mixed "scanpy.plotting" "pca" = Some (VSafePca InUnifiedCompat).
Proof.
  intros Hsc Hpl Horig Hpca twice mixed.
  assert (Hagain : forall s attrs1,
    modules s = <["scanpy.plotting" := Loaded attrs1]> (modules st) ->
    attrs1 !! "_original_pca" = Some pca ->
    resolve (apply_pca_compatibility s).2 "scanpy.plotting" "_original_pca" = Some pca /\
    resolve (apply_pca_compatibility s).2 "scanpy.plotting" "pca"
      = Some (VSafePca InUnifiedCompat) /\
    applied_patches (compat_manager (apply_pca_compatibility s).2)
      = (applied_patches (compat_manager s) ++ ["pca_plotting_safety"])%list).
  { intros s attrs1 Hmods Ho.
    erewrite apply_pca_compatibility_after.
    2:{ eapply install_safe_pca_again with (attrs := attrs1) (pkg := pkg); simpl;
        [rewrite Hmods; by rewrite lookup_insert_ne
        |rewrite Hmods; apply lookup_insert_eq
        |exact Ho]. }
    unfold resolve. simpl. rewrite lookup_insert_eq.
    split; [by rewrite lookup_insert_ne|]. split; [apply lookup_insert_eq|done]. }
  assert (Ho : (<["pca" := VSafePca InUnifiedCompat]> (<["_original_pca" := pca]> attrs))
                 !! "_original_pca" = Some pca).
  { rewrite lookup_insert_ne by done. apply lookup_insert_eq. }
  assert (Ho' : (<["pca" := VSafePca InPcaCompat]> (<["_original_pca" := pca]> attrs))
                  !! "_original_pca" = Some pca).
  { rewrite lookup_insert_ne by done. apply lookup_insert_eq. }
  assert (H1 : modules (apply_pca_compatibility st).2
               = <["scanpy.plotting" :=
                     Loaded (<["pca" := VSafePca InUnifiedCompat]>
                               (<["_original_pca" := pca]> attrs))]> (modules st) /\
               applied_patches (compat_manager (apply_pca_compatibility st).2)
               = (applied_patches (compat_manager st) ++ ["pca_plotting_safety"])%list).
  { erewrite apply_pca_compatibility_after; [|by eapply install_safe_pca_fresh].
    done. }
  assert (H2 : modules (patch_pca_compatibility st).2
               = <["scanpy.plotting" :=
                     Loaded (<["pca" := VSafePca InPcaCompat]>
                               (<["_original_pca" := pca]> attrs))]> (modules st)).
  { erewrite patch_pca_compatibility_after; [|by eapply install_safe_pca_fresh].
    done. }
  destruct H1 as [H1 H1'].
  destruct (Hagain _ _ H1 Ho) as (A1 & A2 & A3).
  destruct (Hagain _ _ H2 Ho') as (B1 & B2 & B3).
  subst twice mixed.
  split; [exact A1|]. split; [exact A2|]. split; [|split; [exact B1|exact B2]].
  rewrite A3, H1'. by rewrite <- app_assoc.
Qed.

End PcaPatchExtras.

Lemma pca_patch_without_scanpy_witness :
  let st := Sample.fresh Sample.disk ∅ in
  UnifiedCompat.apply_pca_compatibility st =
    (Ok (),
     set_stdout ["ℹ️ scanpy not available for PCA patching"]
       (set_calls ["apply_pca_compatibility"] st)).
Proof.
  intros st. exact (proj1 (pca_patch_without_scanpy st eq_refl)).
Defined.

Lemma reinstall_keeps_original_witness :
  let st := Sample.fresh Sample.disk Sample.scanpy_ok in
  let twice := (UnifiedCompat.apply_pca_compatibility
                  (UnifiedCompat.apply_pca_compatibility st).2).2 in
  resolve twice "scanpy.plotting" "_original_pca" = Some (VFn 0) /\
  resolve twice "scanpy.plotting" "pca" = Some (VSafePca InUnifiedCompat).
Proof.
  intros st twice.
  destruct (reinstall_keeps_original st ∅ {[ "pca" := VFn 0 ]} (VFn 0)
              eq_refl eq_refl eq_refl eq_refl) as (H1 & H2 & _).
  split; [exact H1|exact H2].
Defined.

(** ** What the patches leave alone *)

Section PatchFrames.

Import Imports AnndataCompat PcaCompat UnifiedCompat.

Lemma append_patch_grows patch : keeps manager_grows (append_patch patch).
Proof. intros st. split; [done|]. by exists [patch]. Qed.

Lemma set_notebook_context_files name : keeps same_files (set_notebook_context name).
Proof. unfold set_notebook_context. keeps_auto. Qed.

(** Frame conditions of the manager's methods, one relation at a time. *)
Ltac manager_frame :=
  unfold apply_notebook_specific_patches, apply_all_patches,
    apply_anndata_compatibility, apply_pca_compatibility,
    apply_general_resilience, patch_anndata, patch_pca_compatibility,
    install_safe_pca, import_from;
  repeat (first [apply append_patch_grows | keeps_step]);
  try solve [keeps_leaf];
  try solve [intros ?;
             unfold import_module, getattr, setattr, hasattr, set_builtin,
               print, enter, modify, gets, manager_grows;
             simpl; repeat case_match; simpl;
             (split; [done|]; exists []; by rewrite app_nil_r)].

Lemma apply_notebook_specific_patches_files :
  keeps same_files apply_notebook_specific_patches.
Proof. manager_frame. Qed.

Lemma apply_notebook_specific_patches_grows :
  keeps manager_grows apply_notebook_specific_patches.
Proof. manager_frame. Qed.

(** X13: no patch function touches the file system: after
    [setup_compatibility], [patch_anndata] or
    [patch_pca_compatibility], returned or raised, every file is as it
    was. *)
Theorem patches_leave_files name st :
  same_files st (setup_compatibility name st).2 /\
  same_files st (patch_anndata st).2 /\
  same_files st (patch_pca_compatibility st).2.
Proof.
  split; [|split]; revert st.
  - change (keeps same_files (setup_compatibility name)).
    unfold setup_compatibility.
    repeat (first [apply apply_notebook_specific_patches_files
                  |apply set_notebook_context_files
                  |keeps_step]);
      solve [keeps_leaf].
  - change (keeps same_files patch_anndata). manager_frame.
  - change (keeps same_files patch_pca_compatibility). manager_frame.
Qed.

#[local] Instance writes_only_preorder module builtin :
  PreOrder (writes_only module builtin).
Proof.
  split; [done|]. intros x y z (M1 & B1 & E1) (M2 & B2 & E2).
  split; [|split; [|congruence]].
  - intros k Hk. by rewrite M2, M1.
  - intros k Hk. by rewrite B2, B1.
Qed.

Ltac writes_frame :=
  unfold apply_anndata_compatibility, apply_pca_compatibility,
    patch_anndata, patch_pca_compatibility, install_safe_pca, import_from;
  repeat keeps_step;
  solve [intros ?;
         unfold import_module, getattr, setattr, hasattr, set_builtin,
           append_patch, print, enter, modify, gets, writes_only;
         simpl; repeat case_match; simpl;
         repeat split; auto;
         intros; rewrite ?lookup_insert_ne by congruence; done].

(** X14: each patch writes to one attribute table only, [builtins] and
    [sys] counted among the modules: the alias patches and
    [apply_pca_compatibility] to that of [anndata.experimental],
    respectively [scanpy.plotting], and to nothing in [builtins] or
    [sys]; [patch_pca_compatibility] to that of [scanpy.plotting] and to
    the one name [ensure_pca_compatibility] of [builtins];
    [apply_general_resilience] to [sys.excepthook] and to no other. *)
Theorem patch_writes_are_confined st :
  writes_only "anndata.experimental" None st (apply_anndata_compatibility st).2 /\
  writes_only "anndata.experimental" None st (patch_anndata st).2 /\
  writes_only "scanpy.plotting" None st (apply_pca_compatibility st).2 /\
  writes_only "scanpy.plotting" (Some "ensure_pca_compatibility") st
    (patch_pca_compatibility st).2 /\
  (modules (apply_general_resilience st).2 = modules st /\
   builtins (apply_general_resilience st).2 = builtins st /\
   excepthook (apply_general_resilience st).2 = ResilientHook (excepthook st)).
Proof.
  split; [|split; [|split; [|split; [|done]]]]; revert st.
  - change (keeps (writes_only "anndata.experimental" None)
              apply_anndata_compatibility). writes_frame.
  - change (keeps (writes_only "anndata.experimental" None) patch_anndata).
    writes_frame.
  - change (keeps (writes_only "scanpy.plotting" None) apply_pca_compatibility).
    writes_frame.
  - change (keeps (writes_only "scanpy.plotting" (Some "ensure_pca_compatibility"))
              patch_pca_compatibility). writes_frame.
Qed.

(** X15: the manager's record only grows, and its context is set by
    [set_notebook_context] alone: across the dispatcher and every patch
    method, returned or raised, the notebook name is as it was and the
    patches recorded before are still there, in order, at the front. *)
Theorem manager_record_grows st :
  manager_grows st (apply_notebook_specific_patches st).2 /\
  manager_grows st (apply_all_patches st).2 /\
  manager_grows st (apply_anndata_compatibility st).2 /\
  manager_grows st (apply_pca_compatibility st).2 /\
  manager_grows st (apply_general_resilience st).2.
Proof.
  split; [|split; [|split; [|split]]]; revert st.
  - apply apply_notebook_specific_patches_grows.
  - change (keeps manager_grows apply_all_patches). manager_frame.
  - change (keeps manager_grows apply_anndata_compatibility). manager_frame.
  - change (keeps manager_grows apply_pca_compatibility). manager_frame.
  - change (keeps manager_grows apply_general_resilience). manager_frame.
Qed.

End PatchFrames.

(** ** More on the dispatcher and its callers *)

(** Case analysis on every [match] of the goal, innermost first. *)
Ltac case_each :=
  repeat (match goal with
          | |- context [match ?x with _ => _ end] =>
              match x with
              | context [match _ with _ => _ end] => fail 1
              | _ => destruct x eqn:?
              end
          end; simpl in *).

Section DispatcherExtras.

Import Imports AnndataCompat PcaCompat UnifiedCompat.

(** X16: the manager's record of the alias patch is accurate:
    [apply_anndata_compatibility] either changes no module and records
    nothing, or it found [read_elem_lazy] without [read_elem_as_dask],
    stored the one under the name of the other and recorded
    [anndata_read_elem_as_dask]. *)
Theorem alias_record_is_accurate st :
  let st' := (apply_anndata_compatibility st).2 in
  (modules st' = modules st /\ compat_manager st' = compat_manager st) \/
  (exists attrs f,
     modules st !! "anndata.experimental" = Some (Loaded attrs) /\
     attrs !! "read_elem_as_dask" = None /\
     attrs !! "read_elem_lazy" = Some f /\
     modules st' = <["anndata.experimental" :=
                      Loaded (<["read_elem_as_dask" := f]> attrs)]> (modules st) /\
     applied_patches (compat_manager st')
       = (applied_patches (compat_manager st) ++ ["anndata_read_elem_as_dask"])%list).
Proof.
  unfold apply_anndata_compatibility, try_except, import_from, import_module,
    setattr, append_patch.
  run. case_each; simplify_eq; first [by left | right; eauto 10].
Qed.

End DispatcherExtras.

(** ** More on the execution wrapper *)

Section WrapperExtras.

Import PyStr Imports PcaSafeExecution.
Context `{Runtime}.

(** X17: [execute_with_pca_safety] answers with a boolean for every
    [Exception] of its body: what it lets through is no instance of
    [Exception]. *)
Theorem wrapper_lets_no_Exception_through notebook_path output_path st e :
  (execute_with_pca_safety notebook_path output_path st).1 = Raise e ->
  isinstance e Exception = false.
Proof.
  unfold execute_with_pca_safety. rewrite enter_bind. intros Hr.
  apply try_except_escapes in Hr; [tauto|].
  intros e' s. destruct (pca_related (str e')); by eexists _, _.
Qed.

(** X18: when the module [pca_compat] cannot be found, the text of the
    import error itself mentions [pca]: the wrapper takes it for a known
    PCA limitation, returns [True] and the script exits with 0, although
    no patch was applied and the notebook was not executed; nothing but
    three printed lines has changed. *)
Theorem wrapper_without_pca_compat argv0 notebook_path output_path st :
  modules st !! "pca_compat" = None ->
  let reported :=
    set_stdout
      (stdout st ++
         [ "⚠️ PCA-related error detected but handled gracefully:";
           "   No module named 'pca_compat'";
           "✅ Notebook execution completed with known PCA limitation" ])%list
      (set_calls (calls st ++ ["execute_with_pca_safety"]) st) in
  execute_with_pca_safety notebook_path output_path st = (Ok true, reported) /\
  PcaSafeExecution.main [argv0; notebook_path; output_path] st
    = (Raise (SysExit 0), reported).
Proof.
  intros Hmod reported.
  assert (Hrun : execute_with_pca_safety notebook_path output_path st
                 = (Ok true, reported)).
  { unfold execute_with_pca_safety, patched_execution, try_except,
      import_from, import_module.
    run. rewrite Hmod. simpl. run. subst reported. simpl.
    by rewrite <- !app_assoc. }
  split; [exact Hrun|]. unfold PcaSafeExecution.main.
  by rewrite (bind_ok _ _ _ _ _ Hrun).
Qed.

End WrapperExtras.

Lemma wrapper_lets_no_Exception_through_witness :
  let interrupted (_ _ : string) : M unit :=
    raise (Exc KeyboardInterrupt "interrupted") in
  let rt := {| call_args := unit;
               json_load := Sample.load;
               json_dump := Sample.dump;
               builtin_call := Sample.library_call;
               builtin_hook := Sample.library_hook;
               pm_execute_notebook := interrupted |} in
  let st := Sample.fresh Sample.disk
              (<["pca_compat" := Loaded {[ "patch_pca_compatibility" := VPatchPcaCompatibility ]}]>
                 (<["papermill" := Loaded ∅]> Sample.scanpy_ok)) in
  (PcaSafeExecution.execute_with_pca_safety (H := rt) "in.ipynb" "out.ipynb" st).1
    = Raise (Exc KeyboardInterrupt "interrupted") /\
  isinstance (Exc KeyboardInterrupt "interrupted") Exception = false.
Proof.
  intros interrupted rt st.
  assert (Hr : (PcaSafeExecution.execute_with_pca_safety (H := rt)
                  "in.ipynb" "out.ipynb" st).1
               = Raise (Exc KeyboardInterrupt "interrupted"))
    by (vm_compute; reflexivity).
  split; [exact Hr|].
  exact (wrapper_lets_no_Exception_through (H := rt) "in.ipynb" "out.ipynb" st _ Hr).
Defined.

Lemma wrapper_without_pca_compat_witness :
  let st := Sample.fresh Sample.disk ∅ in
  exit_status
    (PcaSafeExecution.main (H := Sample.runtime)
       ["pca_safe_execution.py"; "in.ipynb"; "out.ipynb"] st).1 = 0%Z /\
  files (PcaSafeExecution.main (H := Sample.runtime)
           ["pca_safe_execution.py"; "in.ipynb"; "out.ipynb"] st).2 = files st.
Proof.
  intros st.
  destruct (wrapper_without_pca_compat (H := Sample.runtime)
              "pca_safe_execution.py" "in.ipynb" "out.ipynb" st eq_refl)
    as [_ Hmain].
  rewrite Hmain. by split.
Defined.

(** ** Module frames of the two manager patches, as lemmas *)

Section ModuleFrameLemmas.

Import Imports AnndataCompat PcaCompat UnifiedCompat.

Lemma patches_change_one_module_anndata st :
  same_modules_except "anndata.experimental" st (apply_anndata_compatibility st).2.
Proof.
  revert st.
  change (keeps (same_modules_except "anndata.experimental")
            apply_anndata_compatibility).
  unfold apply_anndata_compatibility, import_from.
  repeat keeps_step; solve [keeps_leaf].
Qed.

Lemma patches_change_one_module_scanpy st :
  same_modules_except "scanpy.plotting" st (apply_pca_compatibility st).2.
Proof.
  revert st.
  change (keeps (same_modules_except "scanpy.plotting") apply_pca_compatibility).
  unfold apply_pca_compatibility, install_safe_pca.
  repeat keeps_step; solve [keeps_leaf].
Qed.

End ModuleFrameLemmas.

(** ** The dispatcher on the names it knows *)

Section KnownNames.

Import Imports AnndataCompat PcaCompat UnifiedCompat.

Lemma dispatch_preprocessing st :
  notebook_name (compat_manager st) = Some "01_scRNA_analysis_preprocessing" ->
  apply_notebook_specific_patches st =
    (apply_pca_compatibility;; apply_general_resilience)
      (set_stdout
         (stdout st ++ ["🎯 Applying patches for 01_scRNA_analysis_preprocessing"])
         (set_calls (calls st ++ ["apply_notebook_specific_patches"]) st)).
Proof.
  intros Hname. unfold apply_notebook_specific_patches. rewrite enter_bind.
  unfold mbind at 1, M_bind at 1, gets at 1. cbv beta iota.
  change (notebook_name (compat_manager (set_calls _ st)))
    with (notebook_name (compat_manager st)).
  rewrite Hname. reflexivity.
Qed.

Lemma dispatch_dask st name :
  notebook_name (compat_manager st) = Some name ->
  name ∈ ["04_scRNA_analysis_dask_out_of_core"; "05_scRNA_analysis_multi_GPU"] ->
  apply_notebook_specific_patches st =
    (apply_anndata_compatibility;; apply_general_resilience)
      (set_stdout (stdout st ++ ["🎯 Applying patches for " +:+ name])
         (set_calls (calls st ++ ["apply_notebook_specific_patches"]) st)).
Proof.
  intros Hname Hin. unfold apply_notebook_specific_patches. rewrite enter_bind.
  unfold mbind at 1, M_bind at 1, gets at 1. cbv beta iota.
  change (notebook_name (compat_manager (set_calls _ st)))
    with (notebook_name (compat_manager st)).
  rewrite Hname.
  apply list_elem_of_In in Hin. simpl in Hin.
  destruct Hin as [<-|[<-|[]]]; reflexivity.
Qed.

(** X19: for the two notebooks of the AnnData alias (04 and 05) the
    dispatcher never touches scanpy: every module but
    [anndata.experimental] is as it was, whatever the outcome; and when
    it returns, it has entered the alias patch and then general
    resilience, and the hook is replaced. *)
Theorem dask_notebooks_patches st name :
  notebook_name (compat_manager st) = Some name ->
  name ∈ ["04_scRNA_analysis_dask_out_of_core"; "05_scRNA_analysis_multi_GPU"] ->
  let run := apply_notebook_specific_patches st in
  same_modules_except "anndata.experimental" st run.2 /\
  (run.1 = Ok () ->
   calls run.2 = (calls st ++ [ "apply_notebook_specific_patches";
                                "apply_anndata_compatibility";
                                "apply_general_resilience" ])%list /\
   excepthook run.2 = ResilientHook (excepthook st)).
Proof.
  intros Hname Hin run. subst run. rewrite (dispatch_dask st name Hname Hin).
  set (st1 := set_stdout _ _).
  pose proof (apply_anndata_compatibility_frame st1) as [Hc Hh].
  pose proof (patches_change_one_module_anndata st1) as Hm.
  destruct (apply_anndata_compatibility st1) as [[[]|e] st2] eqn:HA;
    simpl in Hc, Hh, Hm.
  - rewrite (bind_ok _ _ _ _ _ HA). simpl. split; [exact Hm|]. intros _.
    rewrite Hc, Hh. subst st1. simpl. by rewrite <- !app_assoc.
  - rewrite (bind_raise _ _ _ _ _ HA). simpl. split; [exact Hm|]. discriminate.
Qed.

(** X20: for the preprocessing notebook (01) the dispatcher never touches
    anndata: every module but [scanpy.plotting] is as it was, whatever
    the outcome; and when it returns, it has entered the PCA patch and
    then general resilience, and the hook is replaced. *)
Theorem preprocessing_notebook_patches st :
  notebook_name (compat_manager st) = Some "01_scRNA_analysis_preprocessing" ->
  let run := apply_notebook_specific_patches st in
  same_modules_except "scanpy.plotting" st run.2 /\
  (run.1 = Ok () ->
   calls run.2 = (calls st ++ [ "apply_notebook_specific_patches";
                                "apply_pca_compatibility";
                                "apply_general_resilience" ])%list /\
   excepthook run.2 = ResilientHook (excepthook st)).
Proof.
  intros Hname run. subst run. rewrite (dispatch_preprocessing st Hname).
  set (st1 := set_stdout _ _).
  pose proof (apply_pca_compatibility_frame st1) as [Hc Hh].
  pose proof (patches_change_one_module_scanpy st1) as Hm.
  destruct (apply_pca_compatibility st1) as [[[]|e] st2] eqn:HA;
    simpl in Hc, Hh, Hm.
  - rewrite (bind_ok _ _ _ _ _ HA). simpl. split; [exact Hm|]. intros _.
    rewrite Hc, Hh. subst st1. simpl. by rewrite <- !app_assoc.
  - rewrite (bind_raise _ _ _ _ _ HA). simpl. split; [exact Hm|]. discriminate.
Qed.

End KnownNames.

Lemma dask_notebooks_patches_witness :
  let st := (UnifiedCompat.set_notebook_context
               (Some "04_scRNA_analysis_dask_out_of_core")
               (Sample.fresh Sample.disk Sample.anndata_new)).2 in
  let run := UnifiedCompat.apply_notebook_specific_patches st in
  run.1 = Ok () /\
  same_modules_except "anndata.experimental" st run.2 /\
  calls run.2 = (calls st ++ [ "apply_notebook_specific_patches";
                               "apply_anndata_compatibility";
                               "apply_general_resilience" ])%list /\
  excepthook run.2 = ResilientHook (excepthook st).
Proof.
  intros st run.
  assert (Hok : run.1 = Ok ()) by (vm_compute; reflexivity).
  assert (Hin : "04_scRNA_analysis_dask_out_of_core"
                ∈ ["04_scRNA_analysis_dask_out_of_core"; "05_scRNA_analysis_multi_GPU"])
    by constructor.
  destruct (dask_notebooks_patches st "04_scRNA_analysis_dask_out_of_core" eq_refl Hin)
    as [Hframe Hreturned].
  destruct (Hreturned Hok) as [Hcalls Hhook].
  split; [exact Hok|]. split; [exact Hframe|]. split; [exact Hcalls|exact Hhook].
Defined.

Lemma preprocessing_notebook_patches_witness :
  let st := (UnifiedCompat.set_notebook_context
               (Some "01_scRNA_analysis_preprocessing")
               (Sample.fresh Sample.disk Sample.scanpy_ok)).2 in
  let run := UnifiedCompat.apply_notebook_specific_patches st in
  run.1 = Ok () /\
  same_modules_except "scanpy.plotting" st run.2 /\
  calls run.2 = (calls st ++ [ "apply_notebook_specific_patches";
                               "apply_pca_compatibility";
                               "apply_general_resilience" ])%list /\
  excepthook run.2 = ResilientHook (excepthook st).
Proof.
  intros st run.
  assert (Hok : run.1 = Ok ()) by (vm_compute; reflexivity).
  destruct (preprocessing_notebook_patches st eq_refl) as [Hframe Hreturned].
  destruct (Hreturned Hok) as [Hcalls Hhook].
  split; [exact Hok|]. split; [exact Hframe|]. split; [exact Hcalls|exact Hhook].
Defined.
